(** * Intraday trading bot: decision-and-lifecycle core of [intraday_bot.py]

    A shallow embedding of the sentiment aggregation, the signal rule,
    the risk sizing in [place_trade], the stop-loss monitor, and the
    end-of-day report, followed by the properties of the written
    specification.

    Modelling conventions.
    - Python floats are idealised as exact rationals ([Q]); NaN,
      infinities and rounding are outside the model.  Comparisons of
      rationals are stated with [==], [<] and [<=] of [Q].
    - The two module-level dictionaries [active_positions] and
      [trade_history] are insertion-ordered association lists, as a
      Python [dict] iterates; the files written by the report are a
      finite map from file name to content.
    - External collaborators (talib, TextBlob, VADER, yfinance,
      backtrader, the news fetchers, the csv writer, the clock) are
      parameters: a result of [None] stands for a raised exception or a
      missing value, as the source's [try]/[except] treats it.
    - Text is a [string] of code points below 256.
    - [print] and [logging] calls are not modelled. *)

From Stdlib Require Import QArith Qround Lqa ZArith Lia Ascii String.
From stdpp Require Import gmap strings list pretty.

Local Open Scope Q_scope.

(** ** Configuration constants (lines 17-20) *)

Definition CAPITAL : Z := 100000.
Definition RISK_PER_TRADE : Q := 0.01.
Definition POSITIVE_WORDS : list string :=
  ["rally"; "highs"; "bullish"; "gains"; "optimism"; "rate cut"]%string.
Definition NEGATIVE_WORDS : list string :=
  ["drop"; "crash"; "bearish"; "losses"; "concerns"; "sell-off"]%string.

(** ** Numbers *)

(** Python's [int(x)] on a float: truncation toward zero. *)
Definition py_int (x : Q) : Z := Z.quot (Qnum x) (Zpos (Qden x)).

(** Strict comparison [x < y] as a boolean. *)
Definition Qlt_bool (x y : Q) : bool := negb (Qle_bool y x).

(** [sum(xs)] over floats. *)
Definition Qsum (xs : list Q) : Q := foldl Qplus 0 xs.

(** ** Python dictionaries as insertion-ordered association lists *)

Section PyDict.
Context {K V : Type} `{EqDecision K}.

(** [d.get(k)] *)
Fixpoint dict_get (k : K) (d : list (K * V)) : option V :=
  match d with
  | [] => None
  | (k', v) :: d' => if decide (k' = k) then Some v else dict_get k d'
  end.

(** The entry of an existing key is overwritten where it stands. *)
Definition dict_replace (k : K) (v : V) (d : list (K * V)) : list (K * V) :=
  map (fun kv => if decide (kv.1 = k) then (k, v) else kv) d.

(** [d[k] = v]: overwrite in place, or append a new key at the end. *)
Definition dict_set (k : K) (v : V) (d : list (K * V)) : list (K * V) :=
  match dict_get k d with
  | Some _ => dict_replace k v d
  | None => d ++ [(k, v)]
  end.

(** The dictionary without key [k]. *)
Definition dict_del (k : K) (d : list (K * V)) : list (K * V) :=
  filter (fun kv => kv.1 ≠ k) d.

(** [d.pop(k, None)]: the value, if any, and the remaining dictionary. *)
Definition dict_pop (k : K) (d : list (K * V)) : option V * list (K * V) :=
  (dict_get k d, dict_del k d).

(** [d.setdefault(k, v)]: the stored value and the dictionary, which
    gains the key when it was absent. *)
Definition dict_setdefault (k : K) (v : V) (d : list (K * V))
  : V * list (K * V) :=
  match dict_get k d with
  | Some x => (x, d)
  | None => (v, d ++ [(k, v)])
  end.

(** Number of entries stored under key [k]. *)
Definition dict_count (k : K) (d : list (K * V)) : nat :=
  length (filter (fun kv => kv.1 = k) d).
End PyDict.

(** ** Data model *)

(** The strings "BUY" and "SELL" ([signal]). *)
Inductive Signal := BUY | SELL.

(** The strings "Bullish", "Bearish" and "Neutral" ([sentiment]). *)
Inductive Sentiment := Bullish | Bearish | Neutral.

Global Instance Signal_eq_dec : EqDecision Signal.
Proof. solve_decision. Defined.
Global Instance Sentiment_eq_dec : EqDecision Sentiment.
Proof. solve_decision. Defined.

(** The columns of the price frame that the bot reads, oldest bar first. *)
Record DataFrame := mkFrame {
  High : list Q;
  Low : list Q;
  Close : list Q
}.

(** A value of [active_positions]: the dict built on line 208. *)
Record Position := mkPosition {
  pos_signal : Signal;
  pos_qty : Z;
  pos_entry_price : Q;
  pos_stop_loss : Q
}.

(** A calendar day, written as [strftime('%Y-%m-%d')] writes it. *)
Definition Date := string.

(** An element of a [trade_history] bucket: the dict built on lines 217-219. *)
Record Trade := mkTrade {
  tr_symbol : string;
  tr_signal : Signal;
  tr_qty : Z;
  tr_entry_price : Q;
  tr_exit_price : Q;
  tr_pnl : Q;
  tr_exit_time : string
}.

(** The mutable globals of the module, and the files on disk. *)
Record State := mkState {
  active_positions : list (string * Position);
  trade_history : list (Date * list Trade);
  files : gmap string string
}.

(** A news article: its ["description"] entry, if it has one. *)
Record Article := mkArticle { description : option string }.

(** Exceptions that escape a function of the bot. *)
Inductive exn := IndexError.

Inductive outcome (A : Type) :=
| Ok (a : A)
| Raise (e : exn).
Arguments Ok {A} a.
Arguments Raise {A} e.

(** ** Text helpers *)

(** [str.isspace] on one code point below 256. *)
Definition py_isspace (c : ascii) : bool :=
  let n := nat_of_ascii c in
  ((9 <=? n) && (n <=? 13) || (28 <=? n) && (n <=? 32)
   || (n =? 133) || (n =? 160))%nat.

Fixpoint py_lstrip (s : string) : string :=
  match s with
  | EmptyString => EmptyString
  | String c s' => if py_isspace c then py_lstrip s' else s
  end.

(** [text.strip()] *)
Definition py_strip (s : string) : string :=
  String.rev (py_lstrip (String.rev (py_lstrip s))).

(** [str.lower] on one code point below 256. *)
Definition lower_char (c : ascii) : ascii :=
  let n := nat_of_ascii c in
  if ((65 <=? n) && (n <=? 90)
      || (192 <=? n) && (n <=? 222) && negb (n =? 215))%nat
  then ascii_of_nat (n + 32) else c.

(** [text.lower()] *)
Fixpoint py_lower (s : string) : string :=
  match s with
  | EmptyString => EmptyString
  | String c s' => String (lower_char c) (py_lower s')
  end.

(** Occurrences of a non-empty [sub] in [s] from left to right, the
    first [skip] characters being part of the previous occurrence. *)
Fixpoint count_from (skip : nat) (sub s : string) : nat :=
  match s with
  | EmptyString => 0
  | String _ s' =>
      match skip with
      | S k => count_from k sub s'
      | O => if String.prefix sub s
             then S (count_from (String.length sub - 1) sub s')
             else count_from 0 sub s'
      end
  end.

(** [s.count(sub)]: non-overlapping occurrences. *)
Definition py_count (s sub : string) : nat :=
  match sub with
  | EmptyString => S (String.length s)
  | _ => count_from 0 sub s
  end.

(** [sep.join(parts)] *)
Definition py_join (sep : string) (parts : list string) : string :=
  String.concat sep parts.

(** [sub in s] *)
Fixpoint py_contains (sub s : string) : bool :=
  String.prefix sub s ||
  match s with
  | EmptyString => false
  | String _ s' => py_contains sub s'
  end.

(** [s.split('.')[0]] *)
Fixpoint before_dot (s : string) : string :=
  match s with
  | EmptyString => EmptyString
  | String c s' => if Ascii.eqb c "." then EmptyString else String c (before_dot s')
  end.

(** State updates: assignment to one global leaves the others alone. *)
Definition with_active (a : list (string * Position)) (st : State) : State :=
  {| active_positions := a;
     trade_history := trade_history st;
     files := files st |}.

Definition with_history (h : list (Date * list Trade)) (st : State) : State :=
  {| active_positions := active_positions st;
     trade_history := h;
     files := files st |}.

Definition with_files (f : gmap string string) (st : State) : State :=
  {| active_positions := active_positions st;
     trade_history := trade_history st;
     files := f |}.

(** The state at program start (lines 25-26): no position, no history. *)
Definition initial_state : State :=
  {| active_positions := []; trade_history := []; files := ∅ |}.

(** ** The program *)

Section Bot.

(** [TextBlob(text).sentiment.polarity]; [None] when it raises. *)
Variable TextBlob_polarity : string -> option Q.
(** [vader_analyzer.polarity_scores(text)['compound']]; [None] when it raises. *)
Variable vader_compound : string -> option Q.
(** [talib.ATR(high, low, close, timeperiod)]: the indicator series, NaN
    entries being [None]; [None] as a whole when the call raises. *)
Variable talib_ATR : list Q -> list Q -> list Q -> Z -> option (list (option Q)).
(** [str(x)] of a float, as the csv writer renders it. *)
Variable str_float : Q -> string.
(** One record as [csv.writer] writes it, line terminator included. *)
Variable csv_writerow : list string -> string.

(** *** Sentiment analysis (lines 142-164) *)

(** [sum(text.lower().count(w) for w in words)] *)
Definition keyword_hits (words : list string) (text : string) : Z :=
  foldl Z.add 0%Z (map (fun w => Z.of_nat (py_count (py_lower text) w)) words).

(** The [except] branch of [analyze_sentiment] (lines 148-150). *)
Definition keyword_score (text : string) : Q :=
  let pos := keyword_hits POSITIVE_WORDS text in
  let neg := keyword_hits NEGATIVE_WORDS text in
  inject_Z (pos - neg) / inject_Z (pos + neg + 1).

Definition analyze_sentiment (text : string) : Q :=
  match py_strip text with
  | EmptyString => 0
  | _ =>
      match TextBlob_polarity text, vader_compound text with
      | Some polarity, Some compound => (polarity + compound) / 2
      | _, _ => keyword_score text
      end
  end.

(** Line 155: the descriptions of one draw of news, joined by spaces. *)
Definition sample_text (articles : list Article) : string :=
  py_join " " (map (fun a => default EmptyString (description a)) articles).

(** Line 161: the label of the averaged score. *)
Definition sentiment_label (avg : Q) : Sentiment :=
  if Qlt_bool 0.2 avg then Bullish
  else if Qlt_bool avg (-0.2) then Bearish
  else Neutral.

(** Lines 158-159: the symbols of [ALL_STOCKS] that one sample mentions. *)
Definition mentioned_in (ALL_STOCKS : list (string * string)) (text : string)
  : list string :=
  map fst
    (filter (fun sn => py_contains sn.2 (py_lower text)
                       || py_contains (py_lower (before_dot sn.1)) (py_lower text))
            ALL_STOCKS).

(** [get_all_news i] is the result of the [i]-th call of [get_all_news].
    The order in which Python lists a [set] is not specified; the
    symbols are listed here once each, a repeated one at its last
    mention. *)
Definition fetch_and_analyze_sentiment
    (ALL_STOCKS : list (string * string))
    (get_all_news : nat -> list Article) : Sentiment * Q * list string :=
  let texts := map (fun i => sample_text (get_all_news i)) (seq 0 3) in
  let scores := map analyze_sentiment texts in
  let mentioned := concat (map (mentioned_in ALL_STOCKS) texts) in
  let avg := Qsum scores / inject_Z (Z.of_nat (length scores)) in
  let sent := sentiment_label avg in
  let uniq := match remove_dups mentioned with
              | [] => take 5 (map fst ALL_STOCKS)
              | l => l
              end in
  (sent, avg, uniq).

(** *** ATR and trading (lines 196-235) *)

(** [series.dropna()] *)
Definition dropna (series : list (option Q)) : list Q := omap id series.

Definition calculate_atr (df : DataFrame) : option Q :=
  match talib_ATR (High df) (Low df) (Close df) 14 with
  | Some series => last (dropna series)
  | None => None
  end.

(** Lines 201-207 of [place_trade]: the order that is about to be
    stored, [None] on each early [return]; [df['Close'].iloc[-1]] raises
    [IndexError] on an empty column. *)
Definition size_order (signal : Signal) (sentiment : Sentiment) (df : DataFrame)
  : outcome (option Position) :=
  match calculate_atr df with
  | None => Ok None
  | Some atr =>
      if Qeq_bool atr 0 then Ok None
      else
        let qty := py_int (inject_Z CAPITAL * RISK_PER_TRADE / (atr * 1.5)) in
        if (qty <? 1)%Z then Ok None
        else if bool_decide (sentiment = Bearish /\ signal = BUY)
                || bool_decide (sentiment = Bullish /\ signal = SELL)
        then Ok None
        else
          match last (Close df) with
          | None => Raise IndexError
          | Some entry =>
              let sl := match signal with
                        | BUY => entry - atr * 1.5
                        | SELL => entry + atr * 1.5
                        end in
              Ok (Some {| pos_signal := signal; pos_qty := qty;
                          pos_entry_price := entry; pos_stop_loss := sl |})
          end
  end.

(** Line 208: the order is stored under its symbol. *)
Definition place_trade (symbol : string) (signal : Signal)
    (sentiment : Sentiment) (df : DataFrame) (st : State) : outcome State :=
  match size_order signal sentiment df with
  | Ok (Some pos) =>
      Ok (with_active (dict_set symbol pos (active_positions st)) st)
  | Ok None => Ok st
  | Raise e => Raise e
  end.

(** Line 215. *)
Definition realized_pnl (pos : Position) (price : Q) : Q :=
  match pos_signal pos with
  | BUY => inject_Z (pos_qty pos) * (price - pos_entry_price pos)
  | SELL => inject_Z (pos_qty pos) * (pos_entry_price pos - price)
  end.

(** The record appended on lines 217-219. *)
Definition closed_trade (symbol : string) (pos : Position) (price : Q)
    (hms : string) : Trade :=
  {| tr_symbol := symbol; tr_signal := pos_signal pos; tr_qty := pos_qty pos;
     tr_entry_price := pos_entry_price pos; tr_exit_price := price;
     tr_pnl := realized_pnl pos price; tr_exit_time := hms |}.

(** [today] is [datetime.now().date()] and [hms] is
    [datetime.now().strftime('%H:%M:%S')] at the time of the call. *)
Definition exit_trade (today : Date) (hms : string) (symbol : string)
    (price : Q) (st : State) : State :=
  let '(popped, rest) := dict_pop symbol (active_positions st) in
  match popped with
  | Some pos =>
      let '(bucket, h) := dict_setdefault today [] (trade_history st) in
      with_history
        (dict_set today (bucket ++ [closed_trade symbol pos price hms]) h)
        (with_active rest st)
  | None => with_active rest st
  end.

(** The body of the loop of [monitor_positions] (lines 232-235) for one
    item of the snapshot. *)
Definition monitor_step (get_current_price : string -> option Q)
    (clock : string -> Date * string) (st : State)
    (item : string * Position) : State :=
  let '(sym, pos) := item in
  match get_current_price sym with
  | None => st
  | Some price =>
      match pos_signal pos with
      | BUY =>
          if Qle_bool price (pos_stop_loss pos)
          then exit_trade (clock sym).1 (clock sym).2 sym price st
          else st
      | SELL =>
          if Qle_bool (pos_stop_loss pos) price
          then exit_trade (clock sym).1 (clock sym).2 sym price st
          else st
      end
  end.

(** [clock sym] is the reading of the clock while [sym] is handled. *)
Definition monitor_positions (get_current_price : string -> option Q)
    (clock : string -> Date * string) (st : State) : State :=
  foldl (monitor_step get_current_price clock) st (active_positions st).

(** The ledger operation of the specification: one polled price for one
    instrument, handled as [monitor_positions] handles it. *)
Definition poll_and_maybe_close (today : Date) (hms : string)
    (instrument : string) (currentPrice : Q) (st : State) : State :=
  match dict_get instrument (active_positions st) with
  | None => st
  | Some pos =>
      monitor_step (fun _ => Some currentPrice) (fun _ => (today, hms)) st
        (instrument, pos)
  end.

(** *** Daily report (lines 237-247) *)

Definition str_signal (s : Signal) : string :=
  match s with BUY => "BUY" | SELL => "SELL" end.

(** [all_trades[0].keys()]: the keys of the dict of lines 217-219. *)
Definition report_keys : list string :=
  ["symbol"; "signal"; "qty"; "entry_price"; "exit_price"; "pnl"; "exit_time"]%string.

(** The cells of one row, each value rendered with [str]. *)
Definition report_cells (t : Trade) : list string :=
  [tr_symbol t; str_signal (tr_signal t); pretty (tr_qty t);
   str_float (tr_entry_price t); str_float (tr_exit_price t);
   str_float (tr_pnl t); tr_exit_time t].

(** Line 241: the buckets of every day, one after the other. *)
Definition all_trades (st : State) : list Trade :=
  concat (map snd (trade_history st)).

(** The records handed to [writerows]: one per closed trade. *)
Definition report_rows (trades : list Trade) : list (list string) :=
  map report_cells trades.

(** Line 245: [writeheader()] then [writerows(all_trades)]. *)
Definition report_content (trades : list Trade) : string :=
  String.concat EmptyString
    (map csv_writerow (report_keys :: report_rows trades)).

Definition report_filename (today : Date) : string :=
  ("daily_trade_report_" ++ today ++ ".csv")%string.

(** [today] is [datetime.now().strftime('%Y-%m-%d')]; opening with mode
    ['w'] replaces the content of the file. *)
Definition save_daily_report (today : Date) (st : State) : State :=
  match trade_history st with
  | [] => st
  | _ =>
      match all_trades st with
      | [] => st
      | trades =>
          with_files (<[report_filename today := report_content trades]> (files st)) st
      end
  end.

(** *** Main trading logic (lines 250-257) *)

(** Lines 255-256: the signal for a backtest result. *)
Definition evaluate_signal (pnl : option Q) (sentiment : Sentiment)
  : option Signal :=
  match pnl with
  | None => None
  | Some pnl =>
      if Qlt_bool 0 pnl && bool_decide (sentiment = Bullish) then Some BUY
      else if Qlt_bool pnl 0 && bool_decide (sentiment = Bearish) then Some SELL
      else None
  end.

(** The body of the loop of [daily_trading] for one symbol;
    [backtest_vwap_rsi sym] is [None] for the result [(None, None)]. *)
Definition trade_symbol (backtest_vwap_rsi : string -> option (Q * DataFrame))
    (sentiment : Sentiment) (sym : string) (st : State) : outcome State :=
  let r := backtest_vwap_rsi sym in
  match evaluate_signal (fst <$> r) sentiment, r with
  | Some sig, Some (_, df) => place_trade sym sig sentiment df st
  | _, _ => Ok st
  end.

(** The loop over [stocks]; an exception ends it. *)
Fixpoint trade_symbols (backtest_vwap_rsi : string -> option (Q * DataFrame))
    (sentiment : Sentiment) (stocks : list string) (st : State) : outcome State :=
  match stocks with
  | [] => Ok st
  | sym :: rest =>
      match trade_symbol backtest_vwap_rsi sentiment sym st with
      | Ok st' => trade_symbols backtest_vwap_rsi sentiment rest st'
      | Raise e => Raise e
      end
  end.

Definition daily_trading (ALL_STOCKS : list (string * string))
    (get_all_news : nat -> list Article)
    (backtest_vwap_rsi : string -> option (Q * DataFrame))
    (st : State) : outcome State :=
  let '(sentiment, score, stocks) :=
    fetch_and_analyze_sentiment ALL_STOCKS get_all_news in
  trade_symbols backtest_vwap_rsi sentiment stocks st.

(** *** Specification-side vocabulary *)

(** The risk budget of one trade, [CAPITAL*RISK_PER_TRADE]. *)
Definition risk_budget : Q := inject_Z CAPITAL * RISK_PER_TRADE.

(** The quantity as the specification writes it:
    floor(capital * riskFraction / (atr * 1.5)). *)
Definition spec_quantity (atr : Q) : Z := Qfloor (risk_budget / (atr * 1.5)).

(** The position that [place_trade] stores for a given volatility and
    last close. *)
Definition sized (signal : Signal) (atr entry : Q) : Position :=
  {| pos_signal := signal;
     pos_qty := spec_quantity atr;
     pos_entry_price := entry;
     pos_stop_loss := match signal with
                      | BUY => entry - atr * 1.5
                      | SELL => entry + atr * 1.5
                      end |}.

(** Every key of both dictionaries occurs once. *)
Definition wf_state (st : State) : Prop :=
  NoDup (active_positions st).*1 /\ NoDup (trade_history st).*1.

(** [opens st st']: some sequence of returning [place_trade] calls leads
    from [st] to [st']. *)
Inductive opens : State -> State -> Prop :=
| opens_nil st : opens st st
| opens_call st st' st'' symbol signal sentiment df :
    opens st st' ->
    place_trade symbol signal sentiment df st' = Ok st'' ->
    opens st st''.

(** The states of a run of the scheduler (lines 270-279): the three
    tasks, in any order and any number of times, from the empty ledger. *)
Inductive reachable : State -> Prop :=
| reach_start : reachable initial_state
| reach_trading st st' ALL_STOCKS get_all_news backtest_vwap_rsi :
    reachable st ->
    daily_trading ALL_STOCKS get_all_news backtest_vwap_rsi st = Ok st' ->
    reachable st'
| reach_monitor st get_current_price clock :
    reachable st ->
    reachable (monitor_positions get_current_price clock st)
| reach_report st today :
    reachable st ->
    reachable (save_daily_report today st).

(** The stop-loss test of lines 234-235. *)
Definition breached (pos : Position) (price : Q) : Prop :=
  (pos_signal pos = BUY /\ price <= pos_stop_loss pos) \/
  (pos_signal pos = SELL /\ pos_stop_loss pos <= price).

(** The polled price lies strictly beyond the stop of the position. *)
Definition gapped (pos : Position) (price : Q) : Prop :=
  (pos_signal pos = BUY /\ price < pos_stop_loss pos) \/
  (pos_signal pos = SELL /\ pos_stop_loss pos < price).

(** The realised loss of a closed trade. *)
Definition loss (t : Trade) : Q := - tr_pnl t.

(** A run of further polls of one instrument, each with its own clock
    reading and price. *)
Definition poll_many (instrument : string) (polls : list (Date * string * Q))
    (st : State) : State :=
  foldl (fun s q => poll_and_maybe_close q.1.1 q.1.2 instrument q.2 s) st polls.

(** One instrument of the monitoring cycle: a poll when a price is at hand. *)
Definition poll_listed (get_current_price : string -> option Q)
    (clock : string -> Date * string) (st : State) (sym : string) : State :=
  match get_current_price sym with
  | None => st
  | Some price => poll_and_maybe_close (clock sym).1 (clock sym).2 sym price st
  end.

(** The bucket of [day], empty when the day has none yet. *)
Definition bucket (day : Date) (h : list (Date * list Trade)) : list Trade :=
  default [] (dict_get day h).

(** *** Symbol loader (lines 67-91 of [load_symbols_from_nse_files]) *)

(** The double quote character. *)
Definition quote_char : ascii := ascii_of_nat 34.

(** [str.upper] on one code point below 256.  The three code points
    whose upper case is not a single code point below 256 (181, 223 and
    255) are outside the model and left as they are. *)
Definition upper_char (c : ascii) : ascii :=
  let n := nat_of_ascii c in
  if ((97 <=? n) && (n <=? 122)
      || (224 <=? n) && (n <=? 254) && negb (n =? 247))%nat
  then ascii_of_nat (n - 32) else c.

(** [text.upper()] *)
Fixpoint py_upper (s : string) : string :=
  match s with
  | EmptyString => EmptyString
  | String c s' => String (upper_char c) (py_upper s')
  end.

(** [str.isalpha] on one code point below 256. *)
Definition alpha_char (c : ascii) : bool :=
  let n := nat_of_ascii c in
  ((65 <=? n) && (n <=? 90) || (97 <=? n) && (n <=? 122)
   || (n =? 170) || (n =? 181) || (n =? 186)
   || (192 <=? n) && (n <=? 214) || (216 <=? n) && (n <=? 246)
   || (248 <=? n) && (n <=? 255))%nat.

Fixpoint all_alpha (s : string) : bool :=
  match s with
  | EmptyString => true
  | String c s' => alpha_char c && all_alpha s'
  end.

(** [s.isalpha()]: at least one character, and letters only. *)
Definition py_isalpha (s : string) : bool :=
  match s with
  | EmptyString => false
  | _ => all_alpha s
  end.

(** Replacement of the occurrences of a non-empty [old] from left to
    right, the first [skip] characters being part of the previous
    occurrence. *)
Fixpoint replace_from (skip : nat) (old new s : string) : string :=
  match s with
  | EmptyString => EmptyString
  | String c s' =>
      match skip with
      | S k => replace_from k old new s'
      | O => if String.prefix old s
             then (new ++ replace_from (String.length old - 1) old new s')%string
             else String c (replace_from 0 old new s')
      end
  end.

(** [new] in front of every character and at the end. *)
Fixpoint replace_empty (new s : string) : string :=
  match s with
  | EmptyString => new
  | String c s' => (new ++ String c (replace_empty new s'))%string
  end.

(** [s.replace(old, new)] *)
Definition py_replace (s old new : string) : string :=
  match old with
  | EmptyString => replace_empty new s
  | _ => replace_from 0 old new s
  end.

(** Lines 68-73: one cell of the SYMBOL column, already a [str]. *)
Definition clean_symbol (cell : string) : string :=
  py_upper
    (py_strip
       (py_replace (py_replace cell (String quote_char EmptyString) EmptyString)
          "&amp;" "&")).

(** Lines 76-83: the mask, on a cleaned symbol. *)
Definition valid_symbol (sym : string) : bool :=
  negb (String.eqb sym EmptyString) && negb (String.eqb sym "-")
  && negb (String.prefix "NIFTY" sym)
  && negb (String.prefix "BANKNIFTY" sym)
  && negb (String.prefix "FINNIFTY" sym).

(** Line 89. *)
Definition keep_symbol (sym : string) : bool :=
  py_isalpha (py_replace (py_replace sym "&" EmptyString) "M" EmptyString)
  || py_contains "&" sym.

(** [Series.unique()]: each value once, in order of first appearance;
    [seen] holds the values met so far. *)
Fixpoint unique_from (seen : list string) (l : list string) : list string :=
  match l with
  | [] => []
  | x :: l' =>
      if bool_decide (x ∈ seen) then unique_from seen l'
      else x :: unique_from (x :: seen) l'
  end.

Definition py_unique (l : list string) : list string := unique_from [] l.

(** Lines 87-91: one step of the loop over [valid_symbols]. *)
Definition load_symbol (acc : list (string * string) * nat) (sym : string)
  : list (string * string) * nat :=
  if keep_symbol sym
  then (dict_set (sym ++ ".NS")%string (py_lower sym) acc.1, S acc.2)
  else acc.

(** Lines 85-86. *)
Definition valid_symbols (cells : list string) : list string :=
  py_unique (filter (fun sym => valid_symbol sym = true) (map clean_symbol cells)).

(** Lines 68-91 for one file: [cells] is the SYMBOL column after
    [astype(str)], missing cells left out; the result is [tickers] and
    the [count] that is printed. *)
Definition load_symbol_column (cells : list string)
    (tickers : list (string * string)) : list (string * string) * nat :=
  foldl load_symbol (tickers, 0%nat) (valid_symbols cells).

(** *** Header detection (lines 43-50 of [load_symbols_from_nse_files]) *)






(** *** Backtest strategy (lines 173-179 of [VWAPRSIStrategy.next]) *)

(** The call that [next] makes: [self.buy()], [self.sell()] or
    [self.close()]. *)
Inductive StrategyCall := CallBuy | CallSell | CallClose.

(** [size] is [self.position.size]; a position is falsy when its size is
    zero.  [close], [vwap] and [rsi] are the current values of the
    lines. *)
Definition VWAPRSIStrategy_next (size close vwap rsi : Q) : option StrategyCall :=
  if Qeq_bool size 0 then
    if Qlt_bool vwap close && Qlt_bool rsi 70 then Some CallBuy
    else if Qlt_bool close vwap && Qlt_bool 30 rsi then Some CallSell
    else None
  else
    if Qlt_bool 0 size && (Qlt_bool close vwap || Qlt_bool 70 rsi)
    then Some CallClose
    else if Qlt_bool size 0 && (Qlt_bool vwap close || Qlt_bool rsi 30)
    then Some CallClose
    else None.

(** *** Dashboard metrics (dashboard.py, lines 75-114 and 180) *)

(** A record of [daily_reports]: its ['pnl'] entry, if the report has
    that column. *)
Record ReportRow := mkRow { row_pnl : option Q }.

(** [trade.get('pnl', 0)] *)
Definition pnl_or_zero (r : ReportRow) : Q := default 0 (row_pnl r).

(** Line 95. *)
Definition total_pnl (daily_reports : list ReportRow) : Q :=
  Qsum (map pnl_or_zero daily_reports).

(** Line 103. *)
Definition winning_trades (daily_reports : list ReportRow) : nat :=
  length (filter (fun r => Qlt_bool 0 (pnl_or_zero r) = true) daily_reports).

(** Line 104. *)
Definition win_rate (daily_reports : list ReportRow) : Q :=
  match daily_reports with
  | [] => 0
  | _ => inject_Z (Z.of_nat (winning_trades daily_reports))
         / inject_Z (Z.of_nat (length daily_reports)) * 100
  end.

(** Line 114: the label shown as market sentiment. *)
Definition dashboard_sentiment (daily_reports : list ReportRow) : Sentiment :=
  if Qlt_bool 100 (total_pnl daily_reports) then Bullish
  else if Qlt_bool (total_pnl daily_reports) (-100) then Bearish
  else Neutral.

(** [l[-n:]] for a positive [n]. *)
Definition py_tail (n : nat) (l : list string) : list string :=
  drop (length l - n) l.

(** Line 75 of the dashboard: [lines[-50:] if lines else []]. *)
Definition log_entries (lines : list string) : list string :=
  match lines with
  | [] => []
  | _ => py_tail 50 lines
  end.

(** Line 180: the entries shown in the activity log. *)
Definition shown_log (lines : list string) : list string :=
  py_tail 10 (log_entries lines).

(** The row that the dashboard reads back for a closed trade, the text
    of the report being parsed back to the number that was written. *)
Definition row_of_trade (t : Trade) : ReportRow :=
  {| row_pnl := Some (tr_pnl t) |}.

(** *** Vocabulary of the further properties *)

(** A position as [place_trade] builds them: at least one share, and the
    stop strictly on the losing side of the entry. *)
Definition sound_position (pos : Position) : Prop :=
  (1 <= pos_qty pos)%Z /\
  match pos_signal pos with
  | BUY => pos_stop_loss pos < pos_entry_price pos
  | SELL => pos_entry_price pos < pos_stop_loss pos
  end.

(** Every open position is sound and every closed trade lost money. *)
Definition only_losses (st : State) : Prop :=
  Forall (fun kv => sound_position kv.2) (active_positions st) /\
  Forall (fun t => tr_pnl t < 0) (all_trades st).

(** One run of one of the three scheduled tasks (lines 270-272). *)
Inductive task_step : State -> State -> Prop :=
| step_trading st st' ALL_STOCKS get_all_news backtest_vwap_rsi :
    daily_trading ALL_STOCKS get_all_news backtest_vwap_rsi st = Ok st' ->
    task_step st st'
| step_monitor st get_current_price clock :
    task_step st (monitor_positions get_current_price clock st)
| step_report st today :
    task_step st (save_daily_report today st).

(** The sentiment veto of line 205. *)
Definition vetoed (sentiment : Sentiment) (signal : Signal) : Prop :=
  (sentiment = Bearish /\ signal = BUY) \/ (sentiment = Bullish /\ signal = SELL).

(** *** Sample market data for the worked examples *)

(** An indicator that reports the same volatility [a] for every frame,
    after one warm-up bar. *)
Definition const_ATR (a : Q)
  : list Q -> list Q -> list Q -> Z -> option (list (option Q)) :=
  fun _ _ _ _ => Some [None; Some a].

(** A frame of one bar whose prices all equal [c]. *)
Definition flat_frame (c : Q) : DataFrame := mkFrame [c] [c] [c].

(** A long position sized for a volatility of 2. *)
Definition long_at (entry : Q) : Position := sized BUY 2 entry.

(** A ledger holding one long position in "ABC.NS" bought at [entry]. *)
Definition one_long (entry : Q) : State :=
  {| active_positions := [("ABC.NS"%string, long_at entry)];
     trade_history := [];
     files := ∅ |}.

(** The ledger after that position was stopped out at 96. *)
Definition closed_long : State :=
  poll_and_maybe_close "2024-01-02" "10:15:00" "ABC.NS" 96 (one_long 100).

(** Scorers that answer every text alike, and a feed of two articles. *)
Definition blob_half : string -> option Q := fun _ => Some 0.5.
Definition vader_low : string -> option Q := fun _ => Some (-0.25).
Definition vader_down : string -> option Q := fun _ => None.
Definition rally_news : nat -> list Article :=
  fun _ => [mkArticle (Some "Markets rally to new highs"%string); mkArticle None].

(** Renderings of a float and of a csv record for the examples. *)
Definition plain_float : Q -> string :=
  fun q => (pretty (Qnum q) ++ "/" ++ pretty (Zpos (Qden q)))%string.
Definition plain_row : list string -> string :=
  fun cells => (String.concat "," cells ++ ";")%string.

(** A bullish day: both scorers at 0.5, one listed stock, a backtest in
    profit, and a later price of 96 for every symbol. *)
Definition vader_half : string -> option Q := fun _ => Some 0.5.
Definition one_stock : list (string * string) := [("ABC.NS", "abc")]%string.
Definition backtest_up : string -> option (Q * DataFrame) :=
  fun _ => Some (50, flat_frame 100).
Definition price_96 : string -> option Q := fun _ => Some 96.
Definition morning : string -> Date * string :=
  fun _ => ("2024-01-02", "10:15:00")%string.

(** The ledger after the monitoring cycle ran at that price. *)
Definition stopped_out : State := monitor_positions price_96 morning (one_long 100).

(** A SYMBOL column as an exchange file has it. *)
Definition sample_cells : list string :=
  [" reliance "; "M&amp;M"; "nifty 50"; "-"; "3MINDIA"; "tcs"; "TCS"]%string.

(** A feed whose articles say nothing. *)
Definition silent_news : nat -> list Article :=
  fun _ => [mkArticle None; mkArticle (Some " "%string)].

(** * Properties *)

(** ** Dictionaries *)

Lemma dict_get_None {K V} `{EqDecision K} (k : K) (d : list (K * V)) :
  dict_get k d = None <-> k ∉ d.*1.
Proof.
  induction d as [|[k' v] d IH]; simpl.
  - split; [intros _; apply not_elem_of_nil | done].
  - rewrite not_elem_of_cons. destruct (decide (k' = k)) as [->|Hne].
    + split; [done | intros [? _]; done].
    + rewrite IH. split; [intros ?; split; [congruence | done] | intros [_ ?]; done].
Qed.

Lemma dict_get_Some_elem {K V} `{EqDecision K} (k : K) (v : V) (d : list (K * V)) :
  dict_get k d = Some v -> (k, v) ∈ d.
Proof.
  induction d as [|[k' v'] d IH]; simpl; [done|].
  destruct (decide (k' = k)) as [->|Hne].
  - intros [= ->]. apply list_elem_of_here.
  - intros H'. apply list_elem_of_further. auto.
Qed.

Lemma dict_get_NoDup_elem {K V} `{EqDecision K} (k : K) (v : V) (d : list (K * V)) :
  NoDup d.*1 -> (k, v) ∈ d -> dict_get k d = Some v.
Proof.
  induction d as [|[k' v'] d IH]; simpl; intros Hnd Hin.
  - by apply elem_of_nil in Hin.
  - apply NoDup_cons in Hnd as [Hnotin Hnd].
    apply elem_of_cons in Hin as [[= <- <-]|Hin].
    + by rewrite decide_True.
    + destruct (decide (k' = k)) as [->|Hne]; [|auto].
      exfalso. apply Hnotin. apply list_elem_of_fmap. by exists (k, v).
Qed.

Lemma dict_del_absent {K V} `{EqDecision K} (k : K) (d : list (K * V)) :
  dict_get k d = None -> dict_del k d = d.
Proof.
  unfold dict_del. induction d as [|[k' v] d IH]; simpl; [done|].
  destruct (decide (k' = k)) as [->|Hne]; [done|].
  intros Hget. rewrite filter_cons_True by done. by rewrite IH.
Qed.

Lemma dict_get_del_eq {K V} `{EqDecision K} (k : K) (d : list (K * V)) :
  dict_get k (dict_del k d) = None.
Proof.
  unfold dict_del. induction d as [|[k' v] d IH]; simpl; [done|].
  destruct (decide (k' = k)) as [->|Hne].
  - by rewrite filter_cons_False by (simpl; auto).
  - rewrite filter_cons_True by done. simpl. by rewrite decide_False.
Qed.

Lemma dict_get_del_ne {K V} `{EqDecision K} (k k' : K) (d : list (K * V)) :
  k <> k' -> dict_get k' (dict_del k d) = dict_get k' d.
Proof.
  intros Hkk. unfold dict_del. induction d as [|[k0 v] d IH]; simpl; [done|].
  destruct (decide (k0 = k)) as [->|Hne].
  - rewrite filter_cons_False by (simpl; auto). by rewrite decide_False.
  - rewrite filter_cons_True by done. simpl. by rewrite IH.
Qed.

Lemma dict_del_keys_sub {K V} `{EqDecision K} (k k' : K) (d : list (K * V)) :
  k' ∈ (dict_del k d).*1 -> k' ∈ d.*1.
Proof.
  rewrite !list_elem_of_fmap. intros [kv [-> Hin]].
  apply list_elem_of_filter in Hin as [_ Hin]. by exists kv.
Qed.

Lemma dict_del_NoDup {K V} `{EqDecision K} (k : K) (d : list (K * V)) :
  NoDup d.*1 -> NoDup (dict_del k d).*1.
Proof.
  induction d as [|[k' v] d IH]; simpl; intros Hnd; [done|].
  apply NoDup_cons in Hnd as [Hnotin Hnd]. unfold dict_del in *.
  destruct (decide (k' = k)) as [->|Hne].
  - rewrite filter_cons_False by (simpl; auto). auto.
  - rewrite filter_cons_True by done. simpl. apply NoDup_cons. split; [|auto].
    intros Hin. apply Hnotin. by apply (dict_del_keys_sub k).
Qed.

Lemma dict_replace_keys {K V} `{EqDecision K} (k : K) (v : V) (d : list (K * V)) :
  (dict_replace k v d).*1 = d.*1.
Proof.
  unfold dict_replace. induction d as [|[k' v'] d IH]; [done|].
  rewrite map_cons, !fmap_cons, IH. simpl.
  by destruct (decide (k' = k)) as [->|Hne].
Qed.

Lemma dict_set_keys_present {K V} `{EqDecision K} (k : K) (v : V) (d : list (K * V)) :
  is_Some (dict_get k d) -> (dict_set k v d).*1 = d.*1.
Proof. intros [x Hx]. unfold dict_set. rewrite Hx. apply dict_replace_keys. Qed.

Lemma dict_set_keys_absent {K V} `{EqDecision K} (k : K) (v : V) (d : list (K * V)) :
  dict_get k d = None -> dict_set k v d = d ++ [(k, v)].
Proof. intros Hx. unfold dict_set. by rewrite Hx. Qed.

Lemma dict_set_NoDup {K V} `{EqDecision K} (k : K) (v : V) (d : list (K * V)) :
  NoDup d.*1 -> NoDup (dict_set k v d).*1.
Proof.
  intros Hnd. unfold dict_set. destruct (dict_get k d) eqn:Hget.
  - by rewrite dict_replace_keys.
  - rewrite fmap_app. simpl. apply NoDup_app. split; [done|]. split.
    + intros x Hx Hin. apply list_elem_of_singleton in Hin as ->.
      by apply dict_get_None in Hget.
    + apply NoDup_singleton.
Qed.

Lemma dict_get_app {K V} `{EqDecision K} (k : K) (d1 d2 : list (K * V)) :
  dict_get k (d1 ++ d2) =
  match dict_get k d1 with Some v => Some v | None => dict_get k d2 end.
Proof.
  induction d1 as [|[k' v] d1 IH]; simpl; [done|].
  by destruct (decide (k' = k)).
Qed.

Lemma dict_get_replace_eq {K V} `{EqDecision K} (k : K) (v : V) (d : list (K * V)) :
  is_Some (dict_get k d) -> dict_get k (dict_replace k v d) = Some v.
Proof.
  unfold dict_replace. induction d as [|[k' v'] d IH]; simpl.
  - by intros [? ?].
  - destruct (decide (k' = k)) as [->|Hne]; simpl.
    + by rewrite decide_True.
    + rewrite decide_False by done. auto.
Qed.

Lemma dict_get_replace_ne {K V} `{EqDecision K} (k k' : K) (v : V) (d : list (K * V)) :
  k <> k' -> dict_get k' (dict_replace k v d) = dict_get k' d.
Proof.
  intros Hkk. unfold dict_replace. induction d as [|[k0 v0] d IH]; simpl; [done|].
  destruct (decide (k0 = k)) as [->|Hne]; simpl.
  - by rewrite !decide_False.
  - by rewrite IH.
Qed.

Lemma dict_get_set_eq {K V} `{EqDecision K} (k : K) (v : V) (d : list (K * V)) :
  dict_get k (dict_set k v d) = Some v.
Proof.
  unfold dict_set. destruct (dict_get k d) eqn:Hget.
  - apply dict_get_replace_eq. by rewrite Hget.
  - rewrite dict_get_app, Hget. simpl. by rewrite decide_True.
Qed.

Lemma dict_get_set_ne {K V} `{EqDecision K} (k k' : K) (v : V) (d : list (K * V)) :
  k <> k' -> dict_get k' (dict_set k v d) = dict_get k' d.
Proof.
  intros Hkk. unfold dict_set. destruct (dict_get k d) eqn:Hget.
  - by apply dict_get_replace_ne.
  - rewrite dict_get_app. destruct (dict_get k' d); [done|].
    simpl. by rewrite decide_False.
Qed.

Lemma dict_count_cons {K V} `{EqDecision K} (k k' : K) (v : V) (d : list (K * V)) :
  dict_count k ((k', v) :: d) =
  if decide (k' = k) then S (dict_count k d) else dict_count k d.
Proof.
  unfold dict_count. destruct (decide (k' = k)) as [Heq|Hne].
  - by rewrite filter_cons_True.
  - by rewrite filter_cons_False.
Qed.

Lemma dict_count_pos {K V} `{EqDecision K} (k : K) (d : list (K * V)) :
  k ∈ d.*1 <-> (0 < dict_count k d)%nat.
Proof.
  induction d as [|[k' v] d IH].
  - simpl. rewrite elem_of_nil. unfold dict_count. simpl. lia.
  - rewrite dict_count_cons, fmap_cons, elem_of_cons. simpl.
    destruct (decide (k' = k)) as [->|Hne].
    + split; [lia | auto].
    + rewrite IH. split; [intros [?|?]; [congruence | done] | auto].
Qed.

Lemma dict_count_NoDup {K V} `{EqDecision K} (d : list (K * V)) :
  NoDup d.*1 <-> forall k, (dict_count k d <= 1)%nat.
Proof.
  induction d as [|[k' v] d IH].
  - split; [intros _ k; unfold dict_count; simpl; lia | intros _; apply NoDup_nil_2].
  - rewrite fmap_cons, NoDup_cons, IH. simpl. split.
    + intros [Hnotin Hall] k. rewrite dict_count_cons.
      destruct (decide (k' = k)) as [->|Hne]; [|apply Hall].
      rewrite dict_count_pos in Hnotin. lia.
    + intros Hall. split.
      * rewrite dict_count_pos. specialize (Hall k').
        rewrite dict_count_cons, decide_True in Hall by done. lia.
      * intros k. specialize (Hall k). rewrite dict_count_cons in Hall.
        destruct (decide (k' = k)); lia.
Qed.

(** ** Numbers *)

Lemma Qlt_bool_true (x y : Q) : Qlt_bool x y = true <-> x < y.
Proof.
  unfold Qlt_bool. rewrite negb_true_iff. split.
  - intros Hb. apply Qnot_le_lt. intros Hle.
    apply Qle_bool_iff in Hle. congruence.
  - intros Hlt. destruct (Qle_bool y x) eqn:E; [|done].
    apply Qle_bool_iff in E. exfalso. by apply (Qlt_not_le x y).
Qed.

Lemma Qlt_bool_false (x y : Q) : Qlt_bool x y = false <-> y <= x.
Proof.
  unfold Qlt_bool. rewrite negb_false_iff. apply Qle_bool_iff.
Qed.

Lemma Qle_bool_false (x y : Q) : Qle_bool x y = false <-> y < x.
Proof.
  split.
  - intros Hb. apply Qnot_le_lt. intros Hle.
    apply Qle_bool_iff in Hle. congruence.
  - intros Hlt. destruct (Qle_bool x y) eqn:E; [|done].
    apply Qle_bool_iff in E. exfalso. by apply (Qlt_not_le y x).
Qed.

Lemma py_int_floor (x : Q) : 0 <= x -> py_int x = Qfloor x.
Proof.
  destruct x as [n d]. unfold Qle, py_int, Qfloor. simpl. intros Hn.
  apply Z.quot_div_nonneg; lia.
Qed.

Lemma py_int_nonpos (x : Q) : x <= 0 -> (py_int x <= 0)%Z.
Proof.
  destruct x as [n d]. unfold Qle, py_int. simpl. intros Hn.
  apply Z.quot_le_upper_bound; lia.
Qed.

Lemma risk_budget_value : risk_budget == 1000.
Proof. reflexivity. Qed.

Lemma ratio_pos (atr : Q) : 0 < atr -> 0 < risk_budget / (atr * 1.5).
Proof.
  intros Hatr. apply Qlt_shift_div_l; [lra|]. rewrite risk_budget_value. lra.
Qed.

Lemma ratio_neg (atr : Q) : atr < 0 -> risk_budget / (atr * 1.5) < 0.
Proof.
  intros Hatr.
  assert (risk_budget / (atr * 1.5) == - (risk_budget / (- atr * 1.5))) as ->.
  { field. lra. }
  assert (0 < risk_budget / (- atr * 1.5)); [|lra].
  apply Qlt_shift_div_l; [lra|]. rewrite risk_budget_value. lra.
Qed.

(** With a positive volatility, [int] and floor agree on the ratio. *)
Lemma quantity_floor (atr : Q) :
  0 < atr -> py_int (risk_budget / (atr * 1.5)) = spec_quantity atr.
Proof.
  intros Hatr. apply py_int_floor. apply Qlt_le_weak. by apply ratio_pos.
Qed.

Lemma quantity_nonpos (atr : Q) :
  atr < 0 -> (py_int (risk_budget / (atr * 1.5)) <= 0)%Z.
Proof.
  intros Hatr. apply py_int_nonpos. apply Qlt_le_weak. by apply ratio_neg.
Qed.

Lemma spec_quantity_nonpos (atr : Q) : atr <= 0 -> (spec_quantity atr <= 0)%Z.
Proof.
  intros Hatr. unfold spec_quantity.
  assert (risk_budget / (atr * 1.5) <= 0) as Hle.
  { destruct (Qle_lt_or_eq _ _ Hatr) as [Hlt|Heq].
    - apply Qlt_le_weak. by apply ratio_neg.
    - rewrite Heq. by vm_compute. }
  apply Qfloor_resp_le in Hle. exact Hle.
Qed.

(** ** Risk sizing *)

Lemma size_order_inv signal sentiment df o :
  size_order signal sentiment df = Ok (Some o) ->
  exists atr entry,
    calculate_atr df = Some atr /\ 0 < atr /\
    (1 <= spec_quantity atr)%Z /\
    ~ (sentiment = Bearish /\ signal = BUY) /\
    ~ (sentiment = Bullish /\ signal = SELL) /\
    last (Close df) = Some entry /\
    o = sized signal atr entry.
Proof.
  unfold size_order. destruct (calculate_atr df) as [atr|]; [|done].
  destruct (Qeq_bool atr 0) eqn:Hzero; [done|].
  change (inject_Z CAPITAL * RISK_PER_TRADE) with risk_budget.
  destruct (py_int (risk_budget / (atr * 1.5)) <? 1)%Z eqn:Hqty; [done|].
  apply Z.ltb_ge in Hqty. apply Qeq_bool_neq in Hzero.
  assert (0 < atr) as Hpos.
  { destruct (Qlt_le_dec 0 atr) as [|Hle]; [done|].
    destruct (Qle_lt_or_eq _ _ Hle) as [Hlt|Heq]; [|done].
    apply quantity_nonpos in Hlt. lia. }
  rewrite quantity_floor in * by done.
  destruct (bool_decide (sentiment = Bearish /\ signal = BUY)) eqn:Hv1; [done|].
  destruct (bool_decide (sentiment = Bullish /\ signal = SELL)) eqn:Hv2; [done|].
  apply bool_decide_eq_false in Hv1, Hv2. simpl.
  destruct (last (Close df)) as [entry|] eqn:Hlast; [|done].
  intros [= <-]. exists atr, entry. done.
Qed.

Lemma size_order_intro signal sentiment df atr entry :
  calculate_atr df = Some atr -> 0 < atr ->
  (1 <= spec_quantity atr)%Z ->
  ~ (sentiment = Bearish /\ signal = BUY) ->
  ~ (sentiment = Bullish /\ signal = SELL) ->
  last (Close df) = Some entry ->
  size_order signal sentiment df = Ok (Some (sized signal atr entry)).
Proof.
  intros Hatr Hpos Hqty Hv1 Hv2 Hlast. unfold size_order. rewrite Hatr.
  destruct (Qeq_bool atr 0) eqn:Hzero.
  { apply Qeq_bool_eq in Hzero. rewrite Hzero in Hpos. by apply Qlt_irrefl in Hpos. }
  change (inject_Z CAPITAL * RISK_PER_TRADE) with risk_budget.
  rewrite quantity_floor by done.
  destruct (spec_quantity atr <? 1)%Z eqn:Hlt; [apply Z.ltb_lt in Hlt; lia|].
  rewrite !bool_decide_eq_false_2 by done. simpl. by rewrite Hlast.
Qed.

Lemma size_order_no_atr signal sentiment df :
  calculate_atr df = None -> size_order signal sentiment df = Ok None.
Proof. intros Hatr. unfold size_order. by rewrite Hatr. Qed.

Lemma size_order_bad_atr signal sentiment df atr :
  calculate_atr df = Some atr ->
  atr <= 0 \/ (spec_quantity atr < 1)%Z ->
  size_order signal sentiment df = Ok None.
Proof.
  intros Hatr Hbad. unfold size_order. rewrite Hatr.
  destruct (Qeq_bool atr 0) eqn:Hzero; [done|]. apply Qeq_bool_neq in Hzero.
  change (inject_Z CAPITAL * RISK_PER_TRADE) with risk_budget.
  assert (py_int (risk_budget / (atr * 1.5)) < 1)%Z as Hlt.
  { destruct (Qlt_le_dec 0 atr) as [Hpos|Hle].
    - rewrite quantity_floor by done.
      destruct Hbad as [Hle|Hq]; [|done].
      exfalso. by apply (Qlt_not_le 0 atr).
    - destruct (Qle_lt_or_eq _ _ Hle) as [Hneg|Heq]; [|done].
      apply quantity_nonpos in Hneg. lia. }
  apply Z.ltb_lt in Hlt. by rewrite Hlt.
Qed.

Lemma place_trade_none symbol signal sentiment df st :
  size_order signal sentiment df = Ok None ->
  place_trade symbol signal sentiment df st = Ok st.
Proof. intros Hs. unfold place_trade. by rewrite Hs. Qed.

Lemma place_trade_some symbol signal sentiment df st o :
  size_order signal sentiment df = Ok (Some o) ->
  place_trade symbol signal sentiment df st =
  Ok (with_active (dict_set symbol o (active_positions st)) st).
Proof. intros Hs. unfold place_trade. by rewrite Hs. Qed.

(** C2: the risk sizer produces an order only for an available, strictly
    positive volatility whose quantity floor(capital * riskFraction /
    (atr * 1.5)) is at least 1, and the order carries that quantity;
    with no volatility, with one that is zero or negative, or with a
    quantity below 1, no order is produced and the ledger is left as it
    was. *)
Theorem C2_risk_sizer_quantity signal sentiment df :
  (forall o, size_order signal sentiment df = Ok (Some o) ->
     exists atr, calculate_atr df = Some atr /\ 0 < atr /\
       (1 <= spec_quantity atr)%Z /\ pos_qty o = spec_quantity atr) /\
  ((calculate_atr df = None \/
    exists atr, calculate_atr df = Some atr /\
      (atr <= 0 \/ (spec_quantity atr < 1)%Z)) ->
   size_order signal sentiment df = Ok None /\
   forall symbol st, place_trade symbol signal sentiment df st = Ok st).
Proof.
  split.
  - intros o Ho. apply size_order_inv in Ho as (atr & entry & Hatr & Hpos & Hq & _ & _ & _ & ->).
    exists atr. done.
  - intros Hbad.
    assert (size_order signal sentiment df = Ok None) as Hnone.
    { destruct Hbad as [Hnone|(atr & Hatr & Hbad)].
      - by apply size_order_no_atr.
      - by apply (size_order_bad_atr _ _ _ atr). }
    split; [done|]. intros symbol st. by apply place_trade_none.
Qed.

(** ** Closing a position *)

Lemma dict_replace_absent {K V} `{EqDecision K} (k : K) (v : V) (d : list (K * V)) :
  k ∉ d.*1 -> dict_replace k v d = d.
Proof.
  unfold dict_replace. induction d as [|[k' v'] d IH]; [done|].
  rewrite fmap_cons, not_elem_of_cons, map_cons. simpl. intros [Hne Hnotin].
  rewrite decide_False by done. by rewrite IH.
Qed.

(** In a dictionary with distinct keys, assignment to a present key
    touches exactly its entry and keeps every entry in place. *)
Lemma dict_set_split {K V} `{EqDecision K} (k : K) (v : V) (d : list (K * V)) :
  NoDup d.*1 -> dict_get k d = Some v ->
  exists d1 d2, d = d1 ++ (k, v) :: d2 /\
    forall v', dict_set k v' d = d1 ++ (k, v') :: d2.
Proof.
  intros Hnd Hget. unfold dict_set. rewrite Hget. unfold dict_replace.
  induction d as [|[k' v0] d IH]; [done|].
  rewrite fmap_cons in Hnd. apply NoDup_cons in Hnd as [Hnotin Hnd].
  simpl in Hget, Hnotin. destruct (decide (k' = k)) as [->|Hne].
  - injection Hget as ->. exists [], d. split; [done|]. intros v'.
    rewrite map_cons. simpl. rewrite decide_True by done.
    f_equal. by apply (dict_replace_absent k v' d).
  - destruct (IH Hnd Hget) as (d1 & d2 & -> & Hset).
    exists ((k', v0) :: d1), d2. split; [done|]. intros v'.
    rewrite map_cons. simpl. rewrite decide_False by done. by rewrite Hset.
Qed.

(** Lines 216-219 amount to one assignment to the bucket of the day. *)
Lemma setdefault_append (day : Date) (t : Trade) (h : list (Date * list Trade)) :
  (let '(b, h') := dict_setdefault day [] h in dict_set day (b ++ [t]) h') =
  dict_set day (bucket day h ++ [t]) h.
Proof.
  unfold dict_setdefault, bucket. destruct (dict_get day h) as [b|] eqn:Hget; [done|].
  simpl. unfold dict_set. rewrite dict_get_app, Hget. simpl.
  rewrite decide_True by done. unfold dict_replace. rewrite map_app. simpl.
  rewrite decide_True by done. f_equal.
  apply (dict_replace_absent day [t] h). by apply dict_get_None.
Qed.

Lemma exit_trade_open today hms symbol price st pos :
  dict_get symbol (active_positions st) = Some pos ->
  exit_trade today hms symbol price st =
  {| active_positions := dict_del symbol (active_positions st);
     trade_history :=
       dict_set today
         (bucket today (trade_history st) ++ [closed_trade symbol pos price hms])
         (trade_history st);
     files := files st |}.
Proof.
  intros Hget. unfold exit_trade, dict_pop. rewrite Hget.
  pose proof (setdefault_append today (closed_trade symbol pos price hms)
                (trade_history st)) as Happ.
  destruct (dict_setdefault today [] (trade_history st)) as [b h'].
  unfold with_history, with_active. simpl. by rewrite Happ.
Qed.

Lemma exit_trade_flat today hms symbol price st :
  dict_get symbol (active_positions st) = None ->
  exit_trade today hms symbol price st = st.
Proof.
  intros Hget. unfold exit_trade, dict_pop. rewrite Hget.
  rewrite dict_del_absent by done. by destruct st.
Qed.

Lemma bucket_append_same day t (h : list (Date * list Trade)) :
  bucket day (dict_set day (bucket day h ++ [t]) h) = bucket day h ++ [t].
Proof. unfold bucket at 1. by rewrite dict_get_set_eq. Qed.

Lemma bucket_append_other day day' t (h : list (Date * list Trade)) :
  day <> day' ->
  bucket day' (dict_set day (bucket day h ++ [t]) h) = bucket day' h.
Proof. intros Hne. unfold bucket at 1 3. by rewrite dict_get_set_ne. Qed.

(** Appending to a bucket adds exactly one trade to the flattened
    history and moves no other trade. *)
Lemma history_append_concat day t (h : list (Date * list Trade)) :
  NoDup h.*1 ->
  exists before after,
    concat (map snd h) = before ++ after /\
    concat (map snd (dict_set day (bucket day h ++ [t]) h)) =
      before ++ t :: after.
Proof.
  intros Hnd. unfold bucket. destruct (dict_get day h) as [b|] eqn:Hget; simpl.
  - destruct (dict_set_split day b h Hnd Hget) as (d1 & d2 & Hh & Hset).
    rewrite Hset. rewrite Hh. rewrite !map_app, !concat_app. simpl.
    exists (concat (map snd d1) ++ b), (concat (map snd d2)).
    rewrite <- !app_assoc. done.
  - rewrite dict_set_keys_absent by done. rewrite map_app, concat_app. simpl.
    exists (concat (map snd h)), []. by rewrite !app_nil_r.
Qed.

(** ** Polling one instrument *)

Lemma breached_dec pos price :
  breached pos price <->
  match pos_signal pos with
  | BUY => Qle_bool price (pos_stop_loss pos) = true
  | SELL => Qle_bool (pos_stop_loss pos) price = true
  end.
Proof.
  unfold breached. destruct (pos_signal pos); rewrite Qle_bool_iff; split.
  - intros [[_ ?]|[? _]]; [done | congruence].
  - intros ?. left. done.
  - intros [[? _]|[_ ?]]; [congruence | done].
  - intros ?. right. done.
Qed.

Lemma breached_cases pos price : breached pos price \/ ~ breached pos price.
Proof.
  rewrite breached_dec.
  destruct (pos_signal pos);
    match goal with |- context [Qle_bool ?a ?b] => destruct (Qle_bool a b) end;
    auto.
Qed.

Lemma poll_flat today hms instrument price st :
  dict_get instrument (active_positions st) = None ->
  poll_and_maybe_close today hms instrument price st = st.
Proof. intros Hget. unfold poll_and_maybe_close. by rewrite Hget. Qed.

Lemma poll_breach today hms instrument price st pos :
  dict_get instrument (active_positions st) = Some pos ->
  breached pos price ->
  poll_and_maybe_close today hms instrument price st =
  exit_trade today hms instrument price st.
Proof.
  intros Hget Hbr. unfold poll_and_maybe_close. rewrite Hget. simpl.
  apply breached_dec in Hbr. destruct (pos_signal pos); by rewrite Hbr.
Qed.

Lemma poll_hold today hms instrument price st pos :
  dict_get instrument (active_positions st) = Some pos ->
  ~ breached pos price ->
  poll_and_maybe_close today hms instrument price st = st.
Proof.
  intros Hget Hbr. unfold poll_and_maybe_close. rewrite Hget. simpl.
  rewrite breached_dec in Hbr.
  destruct (pos_signal pos);
    match goal with |- context [Qle_bool ?a ?b] => destruct (Qle_bool a b) end;
    done.
Qed.

(** ** Entry price, stop-loss and the round trip *)

Lemma spec_quantity_atr_2 (atr : Q) : atr == 2 -> spec_quantity atr = 333%Z.
Proof.
  intros Hatr. unfold spec_quantity.
  assert (risk_budget / (atr * 1.5) == 1000 / 3) as ->; [|reflexivity].
  rewrite Hatr. reflexivity.
Qed.

(** C3: an order takes the most recent close as its entry price and puts
    the stop 1.5 ATR below it for a long and 1.5 ATR above it for a
    short; a long opened at 100 with an ATR of 2 has its stop at 97, and
    a polled price of 96 closes it with the profit quantity * (96 - 100),
    which is negative. *)
Theorem C3_entry_stop_roundtrip :
  (forall signal sentiment df o,
     size_order signal sentiment df = Ok (Some o) ->
     exists atr entry,
       calculate_atr df = Some atr /\ last (Close df) = Some entry /\
       pos_signal o = signal /\ pos_entry_price o = entry /\
       (signal = BUY -> pos_stop_loss o == entry - 1.5 * atr) /\
       (signal = SELL -> pos_stop_loss o == entry + 1.5 * atr)) /\
  (forall symbol sentiment df st today hms atr entry,
     calculate_atr df = Some atr -> atr == 2 ->
     last (Close df) = Some entry -> entry == 100 ->
     sentiment <> Bearish ->
     exists p st1,
       place_trade symbol BUY sentiment df st = Ok st1 /\
       dict_get symbol (active_positions st1) = Some p /\
       pos_signal p = BUY /\ pos_entry_price p == 100 /\
       pos_stop_loss p == 97 /\
       let st2 := poll_and_maybe_close today hms symbol 96 st1 in
       dict_get symbol (active_positions st2) = None /\
       exists t,
         bucket today (trade_history st2) =
           bucket today (trade_history st1) ++ [t] /\
         tr_symbol t = symbol /\ tr_exit_price t = 96 /\
         tr_pnl t == inject_Z (pos_qty p) * (96 - 100) /\
         tr_pnl t < 0).
Proof.
  split.
  - intros signal sentiment df o Ho.
    apply size_order_inv in Ho as (atr & entry & Hatr & _ & _ & _ & _ & Hlast & ->).
    exists atr, entry. repeat split; try done.
    + intros ->. simpl. ring.
    + intros ->. simpl. ring.
  - intros symbol sentiment df st today hms atr entry Hatr Hatr2 Hlast Hentry Hsent.
    pose proof (spec_quantity_atr_2 atr Hatr2) as Hq.
    assert (size_order BUY sentiment df = Ok (Some (sized BUY atr entry))) as Hsize.
    { apply size_order_intro; try done.
      - rewrite Hatr2. reflexivity.
      - rewrite Hq. lia.
      - intros [? _]. done.
      - intros [_ ?]. done. }
    set (p := sized BUY atr entry).
    set (st1 := with_active (dict_set symbol p (active_positions st)) st).
    assert (dict_get symbol (active_positions st1) = Some p) as Hget
      by apply dict_get_set_eq.
    assert (pos_stop_loss p == 97) as Hstop.
    { simpl. rewrite Hatr2, Hentry. reflexivity. }
    assert (breached p 96) as Hbr.
    { left. split; [done|]. rewrite Hstop. by vm_compute. }
    exists p, st1. split; [by apply place_trade_some|].
    split; [done|]. split; [done|]. split; [done|]. split; [done|].
    simpl. rewrite (poll_breach _ _ _ _ _ p) by done.
    rewrite (exit_trade_open _ _ _ _ _ p) by done. simpl.
    split; [apply dict_get_del_eq|].
    exists (closed_trade symbol p 96 hms). split; [apply bucket_append_same|].
    split; [done|]. split; [done|].
    assert (tr_pnl (closed_trade symbol p 96 hms)
            == inject_Z (pos_qty p) * (96 - 100)) as Hpnl.
    { simpl. unfold realized_pnl. simpl. rewrite Hentry. reflexivity. }
    split; [done|]. rewrite Hpnl. simpl. rewrite Hq. by vm_compute.
Qed.

(** ** Stop-loss exits *)

Lemma poll_many_flat instrument polls st :
  dict_get instrument (active_positions st) = None ->
  poll_many instrument polls st = st.
Proof.
  intros Hget. unfold poll_many. induction polls as [|q polls IH]; [done|].
  simpl. by rewrite poll_flat.
Qed.

(** C7: polling an instrument without an open position changes nothing;
    an open position is closed exactly when a long is polled at or below
    its stop or a short at or above it, and closing appends exactly one
    closed trade; after the close every further poll of that instrument
    changes nothing. *)
Theorem C7_poll_and_maybe_close today hms instrument price st :
  NoDup (trade_history st).*1 ->
  let st' := poll_and_maybe_close today hms instrument price st in
  (dict_get instrument (active_positions st) = None ->
     st' = st /\ exit_trade today hms instrument price st = st) /\
  (forall pos, dict_get instrument (active_positions st) = Some pos ->
     (breached pos price ->
        st' = exit_trade today hms instrument price st /\
        active_positions st' = dict_del instrument (active_positions st) /\
        dict_get instrument (active_positions st') = None /\
        bucket today (trade_history st') =
          bucket today (trade_history st)
            ++ [closed_trade instrument pos price hms] /\
        (forall day, day <> today ->
           bucket day (trade_history st') = bucket day (trade_history st)) /\
        (exists before after,
           all_trades st = before ++ after /\
           all_trades st' =
             before ++ closed_trade instrument pos price hms :: after) /\
        length (all_trades st') = S (length (all_trades st)) /\
        files st' = files st /\
        (forall polls, poll_many instrument polls st' = st') /\
        (forall today2 hms2 price2,
           exit_trade today2 hms2 instrument price2 st' = st')) /\
     (~ breached pos price -> st' = st)).
Proof.
  intros Hnd. simpl. split.
  { intros Hflat. split; [by apply poll_flat | by apply exit_trade_flat]. }
  intros pos Hget. split; [|by apply poll_hold].
  intros Hbr. rewrite (poll_breach _ _ _ _ _ pos) by done.
  split; [done|].
  rewrite (exit_trade_open _ _ _ _ _ pos) by done. simpl.
  destruct (history_append_concat today (closed_trade instrument pos price hms)
              (trade_history st) Hnd) as (before & after & Hold & Hnew).
  split; [done|]. split; [apply dict_get_del_eq|].
  split; [apply bucket_append_same|].
  split; [intros day Hne; by apply bucket_append_other|].
  split; [by exists before, after|].
  split.
  { unfold all_trades. simpl. rewrite Hold, Hnew, !length_app. simpl. lia. }
  split; [done|]. split.
  - intros polls. apply poll_many_flat. simpl. apply dict_get_del_eq.
  - intros today2 hms2 price2. apply exit_trade_flat. simpl.
    apply dict_get_del_eq.
Qed.

Lemma quantity_budget (atr : Q) :
  0 < atr -> risk_budget < inject_Z (spec_quantity atr + 1) * (atr * 1.5).
Proof.
  intros Hatr. unfold spec_quantity.
  pose proof (Qlt_floor (risk_budget / (atr * 1.5))) as Hfl.
  apply (Qmult_lt_r _ _ (atr * 1.5)) in Hfl; [|lra].
  assert (risk_budget / (atr * 1.5) * (atr * 1.5) == risk_budget) as Heq
    by (field; lra).
  by rewrite Heq in Hfl.
Qed.

(** C10: on a stop-loss breach the recorded exit price is the polled
    price, not the stop, and the profit is computed from it; a polled
    price strictly beyond the stop gives a loss above quantity * 1.5 *
    atr, and one that overshoots the stop by a further stop distance
    gives a loss above the risk budget capital * riskFraction. *)
Theorem C10_exit_at_polled_price today hms instrument st pos p :
  dict_get instrument (active_positions st) = Some pos ->
  breached pos p ->
  let st' := poll_and_maybe_close today hms instrument p st in
  let t := closed_trade instrument pos p hms in
  bucket today (trade_history st') = bucket today (trade_history st) ++ [t] /\
  tr_exit_price t = p /\
  (pos_signal pos = BUY ->
     tr_pnl t = inject_Z (pos_qty pos) * (p - pos_entry_price pos)) /\
  (pos_signal pos = SELL ->
     tr_pnl t = inject_Z (pos_qty pos) * (pos_entry_price pos - p)) /\
  (forall signal sentiment df atr,
     size_order signal sentiment df = Ok (Some pos) ->
     calculate_atr df = Some atr ->
     (gapped pos p -> inject_Z (pos_qty pos) * 1.5 * atr < loss t) /\
     (pos_signal pos = BUY -> p <= pos_stop_loss pos - 1.5 * atr ->
        risk_budget < loss t) /\
     (pos_signal pos = SELL -> pos_stop_loss pos + 1.5 * atr <= p ->
        risk_budget < loss t) /\
     (exists p', gapped pos p' /\
        inject_Z (pos_qty pos) * 1.5 * atr
          < loss (closed_trade instrument pos p' hms) /\
        risk_budget < loss (closed_trade instrument pos p' hms))).
Proof.
  intros Hget Hbr. simpl.
  rewrite (poll_breach _ _ _ _ _ pos) by done.
  rewrite (exit_trade_open _ _ _ _ _ pos) by done. simpl.
  split; [apply bucket_append_same|]. split; [done|].
  unfold loss, realized_pnl. simpl.
  split; [by intros ->|]. split; [by intros ->|].
  intros signal sentiment df atr Hsize Hatr.
  apply size_order_inv in Hsize
    as (atr' & entry & Hatr' & Hpos & Hq & _ & _ & _ & ->).
  rewrite Hatr in Hatr'. injection Hatr' as <-.
  pose proof (quantity_budget atr Hpos) as Hbud.
  rewrite inject_Z_plus in Hbud.
  assert (1 <= inject_Z (spec_quantity atr)) as Hq1.
  { rewrite (Zle_Qle 1) in Hq. exact Hq. }
  change (inject_Z 1) with 1 in Hbud.
  unfold gapped, realized_pnl. simpl.
  generalize dependent (inject_Z (spec_quantity atr)). intros q Hbud Hq1.
  generalize dependent risk_budget. intros budget Hbud.
  clear Hget Hbr Hatr.
  split; [|split; [|split]].
  - intros [[-> Hlt]|[-> Hlt]]; simpl; nra.
  - intros -> Hle. simpl in *. nra.
  - intros -> Hle. simpl in *. nra.
  - destruct signal; simpl.
    + exists (entry - atr * 1.5 - 1.5 * atr).
      split; [left; split; [done | lra]|]. split; nra.
    + exists (entry + atr * 1.5 + 1.5 * atr).
      split; [right; split; [done | lra]|]. split; nra.
Qed.

(** ** The ledger invariant *)

Lemma wf_initial : wf_state initial_state.
Proof. split; apply NoDup_nil_2. Qed.

Lemma place_trade_inv symbol signal sentiment df st st' :
  place_trade symbol signal sentiment df st = Ok st' ->
  st' = st \/
  exists o, size_order signal sentiment df = Ok (Some o) /\
    st' = with_active (dict_set symbol o (active_positions st)) st.
Proof.
  unfold place_trade.
  destruct (size_order signal sentiment df) as [[o|]|e]; intros [= <-].
  - right. by exists o.
  - by left.
Qed.

Lemma place_trade_wf symbol signal sentiment df st st' :
  wf_state st ->
  place_trade symbol signal sentiment df st = Ok st' ->
  wf_state st'.
Proof.
  intros [Ha Hh] Hplace.
  apply place_trade_inv in Hplace as [->|(o & _ & ->)]; [done|].
  split; simpl; [by apply dict_set_NoDup | done].
Qed.

Lemma place_trade_frame symbol signal sentiment df st st' :
  place_trade symbol signal sentiment df st = Ok st' ->
  trade_history st' = trade_history st /\ files st' = files st.
Proof.
  intros Hplace. by apply place_trade_inv in Hplace as [->|(o & _ & ->)].
Qed.

Lemma exit_trade_wf today hms symbol price st :
  wf_state st -> wf_state (exit_trade today hms symbol price st).
Proof.
  intros [Ha Hh]. destruct (dict_get symbol (active_positions st)) as [pos|] eqn:Hget.
  - rewrite (exit_trade_open _ _ _ _ _ pos) by done.
    split; simpl; [by apply dict_del_NoDup | by apply dict_set_NoDup].
  - by rewrite exit_trade_flat.
Qed.

Lemma monitor_step_wf get_current_price clock st item :
  wf_state st -> wf_state (monitor_step get_current_price clock st item).
Proof.
  intros Hwf. destruct item as [sym pos]. unfold monitor_step.
  destruct (get_current_price sym) as [price|]; [|done].
  destruct (pos_signal pos);
    match goal with |- context [Qle_bool ?a ?b] => destruct (Qle_bool a b) end;
    try done; by apply exit_trade_wf.
Qed.

Lemma monitor_positions_wf get_current_price clock st :
  wf_state st -> wf_state (monitor_positions get_current_price clock st).
Proof.
  unfold monitor_positions. generalize (active_positions st) as items.
  intros items. revert st. induction items as [|item items IH]; intros st Hwf; [done|].
  simpl. apply IH. by apply monitor_step_wf.
Qed.

Lemma poll_wf today hms instrument price st :
  wf_state st -> wf_state (poll_and_maybe_close today hms instrument price st).
Proof.
  intros Hwf. unfold poll_and_maybe_close.
  destruct (dict_get instrument (active_positions st)); [|done].
  by apply monitor_step_wf.
Qed.

Lemma save_daily_report_frame today st :
  active_positions (save_daily_report today st) = active_positions st /\
  trade_history (save_daily_report today st) = trade_history st.
Proof.
  unfold save_daily_report. destruct (trade_history st) eqn:Eh; [done|].
  rewrite <- Eh. by destruct (all_trades st).
Qed.

Lemma save_daily_report_wf today st :
  wf_state st -> wf_state (save_daily_report today st).
Proof.
  intros [Ha Hh]. destruct (save_daily_report_frame today st) as [Ea Eh].
  split; congruence.
Qed.

Lemma opens_wf st st' : wf_state st -> opens st st' -> wf_state st'.
Proof.
  intros Hwf Hopens. induction Hopens as [|st st1 st2 ? ? ? ? _ IH Hcall]; [done|].
  eapply place_trade_wf; [by apply IH | exact Hcall].
Qed.

Lemma opens_frame st st' :
  opens st st' ->
  trade_history st' = trade_history st /\ files st' = files st.
Proof.
  intros Hopens. induction Hopens as [|st st1 st2 ? ? ? ? _ [IHh IHf] Hcall]; [done|].
  apply place_trade_frame in Hcall as [Eh Ef]. split; congruence.
Qed.

Lemma opens_trans st1 st2 st3 : opens st1 st2 -> opens st2 st3 -> opens st1 st3.
Proof.
  intros H12 H23. induction H23 as [|st2 st st' ? ? ? ? _ IH Hcall]; [done|].
  eapply opens_call; [by apply IH | exact Hcall].
Qed.

(** One pass of [daily_trading] that returns is a sequence of
    [place_trade] calls. *)
Lemma trade_symbols_opens backtest_vwap_rsi sentiment stocks st st' :
  trade_symbols backtest_vwap_rsi sentiment stocks st = Ok st' ->
  opens st st'.
Proof.
  revert st. induction stocks as [|sym stocks IH]; intros st; simpl.
  - intros [= <-]. apply opens_nil.
  - destruct (trade_symbol backtest_vwap_rsi sentiment sym st) as [st1|e] eqn:Hone; [|done].
    intros Hrest. apply (opens_trans st st1); [|by apply IH].
    unfold trade_symbol in Hone.
    destruct (evaluate_signal (fst <$> backtest_vwap_rsi sym) sentiment) as [sig|].
    + destruct (backtest_vwap_rsi sym) as [[pnl df]|].
      * eapply opens_call; [apply opens_nil | exact Hone].
      * injection Hone as <-. apply opens_nil.
    + injection Hone as <-. apply opens_nil.
Qed.

Lemma daily_trading_opens ALL_STOCKS get_all_news backtest_vwap_rsi st st' :
  daily_trading ALL_STOCKS get_all_news backtest_vwap_rsi st = Ok st' ->
  opens st st'.
Proof.
  unfold daily_trading.
  destruct (fetch_and_analyze_sentiment ALL_STOCKS get_all_news) as [[sentiment score] stocks].
  apply trade_symbols_opens.
Qed.

(** Every state of a run keeps the keys of both dictionaries distinct. *)
Lemma reachable_wf st : reachable st -> wf_state st.
Proof.
  induction 1 as [|st st' ? ? ? _ IH Hrun|st ? ? _ IH|st ? _ IH].
  - apply wf_initial.
  - apply daily_trading_opens in Hrun. by apply (opens_wf st).
  - by apply monitor_positions_wf.
  - by apply save_daily_report_wf.
Qed.

(** C1, as the code has it: [place_trade] does not reject an order for an
    instrument that already has an open position, it overwrites the
    position under the same key; the ledger being keyed by instrument,
    after any sequence of [place_trade] calls each instrument has at
    most one open position. *)
Theorem C1_open_overwrites_one_per_instrument st0 st :
  (forall s, (dict_count s (active_positions st0) <= 1)%nat) ->
  opens st0 st ->
  (forall s, (dict_count s (active_positions st) <= 1)%nat) /\
  (forall symbol signal sentiment df o,
     size_order signal sentiment df = Ok (Some o) ->
     exists st',
       place_trade symbol signal sentiment df st = Ok st' /\
       dict_get symbol (active_positions st') = Some o /\
       (forall s, s <> symbol ->
          dict_get s (active_positions st') = dict_get s (active_positions st)) /\
       (is_Some (dict_get symbol (active_positions st)) ->
          (active_positions st').*1 = (active_positions st).*1) /\
       (forall s, (dict_count s (active_positions st') <= 1)%nat)).
Proof.
  intros Hcount Hopens.
  assert (NoDup (active_positions st).*1) as Hnd.
  { apply dict_count_NoDup in Hcount. clear -Hcount Hopens.
    induction Hopens as [|st st1 st2 ? ? ? ? _ IH Hcall]; [done|].
    apply place_trade_inv in Hcall as [->|(o & _ & ->)]; [by apply IH|].
    simpl. apply dict_set_NoDup. by apply IH. }
  split; [by apply dict_count_NoDup|].
  intros symbol signal sentiment df o Hsize.
  exists (with_active (dict_set symbol o (active_positions st)) st).
  split; [by apply place_trade_some|]. simpl.
  split; [apply dict_get_set_eq|].
  split; [intros s Hne; by apply dict_get_set_ne|].
  split; [apply dict_set_keys_present|].
  apply dict_count_NoDup. by apply dict_set_NoDup.
Qed.

(** ** Signals *)

Lemma evaluate_signal_cases (e : Q) (sentiment : Sentiment) :
  (0 < e -> evaluate_signal (Some e) sentiment =
            match sentiment with Bullish => Some BUY | _ => None end) /\
  (e < 0 -> evaluate_signal (Some e) sentiment =
            match sentiment with Bearish => Some SELL | _ => None end) /\
  (e == 0 -> evaluate_signal (Some e) sentiment = None).
Proof.
  unfold evaluate_signal. repeat split.
  - intros Hlt. assert (Qlt_bool e 0 = false) as Hn by (apply Qlt_bool_false; lra).
    apply Qlt_bool_true in Hlt. rewrite Hlt, Hn. by destruct sentiment.
  - intros Hlt. assert (Qlt_bool 0 e = false) as Hn by (apply Qlt_bool_false; lra).
    apply Qlt_bool_true in Hlt. rewrite Hlt, Hn. by destruct sentiment.
  - intros Heq.
    assert (Qlt_bool 0 e = false) as -> by (apply Qlt_bool_false; lra).
    assert (Qlt_bool e 0 = false) as -> by (apply Qlt_bool_false; lra).
    done.
Qed.

(** C4: a long signal is produced exactly when an expectancy estimate
    exists, is positive and the sentiment is Bullish; a short signal
    exactly when it exists, is negative and the sentiment is Bearish;
    in every other case (no estimate, Neutral sentiment, zero estimate,
    sign and sentiment in disagreement) there is no signal and the
    instrument is not traded. *)
Theorem C4_signal_gate (pnl : option Q) (sentiment : Sentiment) :
  (evaluate_signal pnl sentiment = Some BUY <->
     exists e, pnl = Some e /\ 0 < e /\ sentiment = Bullish) /\
  (evaluate_signal pnl sentiment = Some SELL <->
     exists e, pnl = Some e /\ e < 0 /\ sentiment = Bearish) /\
  (evaluate_signal pnl sentiment = None <->
     pnl = None \/ sentiment = Neutral \/
     exists e, pnl = Some e /\
       (e == 0 \/ (0 < e /\ sentiment = Bearish) \/
        (e < 0 /\ sentiment = Bullish))) /\
  (forall backtest_vwap_rsi sym st,
     evaluate_signal (fst <$> backtest_vwap_rsi sym) sentiment = None ->
     trade_symbol backtest_vwap_rsi sentiment sym st = Ok st).
Proof.
  assert (forall backtest_vwap_rsi sym st,
     evaluate_signal (fst <$> backtest_vwap_rsi sym) sentiment = None ->
     trade_symbol backtest_vwap_rsi sentiment sym st = Ok st) as Hskip.
  { intros backtest_vwap_rsi sym st Hnone. unfold trade_symbol. by rewrite Hnone. }
  destruct pnl as [e|].
  - destruct (evaluate_signal_cases e sentiment) as (Hpos & Hneg & Hzero).
    destruct (Q_dec 0 e) as [[Hlt|Hgt]|Heq].
    + rewrite (Hpos Hlt). destruct sentiment; (repeat split; try done).
      all: try (intros (e' & [= <-] & ? & ?); first [done | lra]).
      all: try (intros _; by exists e).
      all: try (intros _; first [ by (right; left) | right; right; exists e; split; [done|]; first [ by left | by (right; left) | by (right; right) ] ]).
      all: try (intros [?|[?|(e' & [= <-] & [?|[[? ?]|[? ?]]])]]; first [done | lra]).
    + rewrite (Hneg Hgt). destruct sentiment; (repeat split; try done).
      all: try (intros (e' & [= <-] & ? & ?); first [done | lra]).
      all: try (intros _; by exists e).
      all: try (intros _; first [ by (right; left) | right; right; exists e; split; [done|]; first [ by left | by (right; left) | by (right; right) ] ]).
      all: try (intros [?|[?|(e' & [= <-] & [?|[[? ?]|[? ?]]])]]; first [done | lra]).
    + symmetry in Heq. rewrite (Hzero Heq). (repeat split; try done).
      all: try (intros (e' & [= <-] & ? & ?); first [done | lra]).
      all: try (intros _; by exists e).
      all: try (intros _; first [ by (right; left) | right; right; exists e; split; [done|]; first [ by left | by (right; left) | by (right; right) ] ]).
  - simpl. repeat split; try done.
    + by intros (e & ? & _).
    + by intros (e & ? & _).
    + intros _. by left.
Qed.

(** ** Sentiment *)

Lemma sentiment_label_proper (s s' : Q) :
  s == s' -> sentiment_label s = sentiment_label s'.
Proof.
  intros Heq. unfold sentiment_label, Qlt_bool.
  assert (Qle_bool s 0.2 = Qle_bool s' 0.2) as -> by (by rewrite Heq).
  assert (Qle_bool (-0.2) s = Qle_bool (-0.2) s') as -> by (by rewrite Heq).
  done.
Qed.

(** C5: the label is a function of the score and the two fixed
    thresholds: above 0.2 Bullish, below -0.2 Bearish, Neutral
    otherwise, the thresholds themselves and zero included. *)
Theorem C5_sentiment_label (score : Q) :
  (0.2 < score -> sentiment_label score = Bullish) /\
  (score < -0.2 -> sentiment_label score = Bearish) /\
  (-0.2 <= score <= 0.2 -> sentiment_label score = Neutral) /\
  (forall score', score == score' ->
     sentiment_label score = sentiment_label score') /\
  sentiment_label 0.2 = Neutral /\ sentiment_label (-0.2) = Neutral /\
  sentiment_label 0 = Neutral /\
  sentiment_label 0.25 = Bullish /\ sentiment_label (-0.25) = Bearish /\
  (forall ALL_STOCKS get_all_news,
     (fetch_and_analyze_sentiment ALL_STOCKS get_all_news).1.1 =
     sentiment_label (fetch_and_analyze_sentiment ALL_STOCKS get_all_news).1.2).
Proof.
  split; [|split; [|split; [|split]]].
  - intros Hlt. unfold sentiment_label.
    apply Qlt_bool_true in Hlt. by rewrite Hlt.
  - intros Hlt. unfold sentiment_label.
    destruct (Qlt_bool 0.2 score) eqn:Hhi.
    + apply Qlt_bool_true in Hhi. lra.
    + apply Qlt_bool_true in Hlt. by rewrite Hlt.
  - intros [Hlo Hhi]. unfold sentiment_label.
    apply Qlt_bool_false in Hlo, Hhi. by rewrite Hhi, Hlo.
  - apply sentiment_label_proper.
  - repeat split.
Qed.

(** ** Score ranges *)

Lemma foldl_add_nonneg (zs : list Z) (acc : Z) :
  (0 <= acc)%Z -> Forall (fun z => (0 <= z)%Z) zs ->
  (0 <= foldl Z.add acc zs)%Z.
Proof.
  revert acc. induction zs as [|z zs IH]; intros acc Hacc Hall; [done|].
  apply Forall_cons in Hall as [Hz Hall]. simpl. apply IH; [lia | done].
Qed.

Lemma keyword_hits_nonneg words text : (0 <= keyword_hits words text)%Z.
Proof.
  unfold keyword_hits. apply foldl_add_nonneg; [lia|].
  apply Forall_forall. intros z Hz.
  apply list_elem_of_fmap in Hz as (w & -> & _). lia.
Qed.

(** The fallback lies strictly between -1 and 1. *)
Lemma keyword_score_range text : -1 < keyword_score text < 1.
Proof.
  unfold keyword_score.
  pose proof (keyword_hits_nonneg POSITIVE_WORDS text) as Hp.
  pose proof (keyword_hits_nonneg NEGATIVE_WORDS text) as Hn.
  set (pos := keyword_hits POSITIVE_WORDS text) in *.
  set (neg := keyword_hits NEGATIVE_WORDS text) in *.
  assert (0 < inject_Z (pos + neg + 1)) as Hden.
  { unfold Qlt. simpl. lia. }
  split.
  - apply Qlt_shift_div_l; [done|].
    assert (-1 * inject_Z (pos + neg + 1) == inject_Z (- (pos + neg + 1))) as ->.
    { rewrite inject_Z_opp. ring. }
    rewrite <- Zlt_Qlt. lia.
  - apply Qlt_shift_div_r; [done|].
    rewrite Qmult_1_l. rewrite <- Zlt_Qlt. lia.
Qed.

Lemma py_lstrip_blank text :
  Forall (fun c => py_isspace c = true) (list_ascii_of_string text) ->
  py_lstrip text = EmptyString.
Proof.
  induction text as [|c text IH]; simpl; [done|].
  intros Hall. apply Forall_cons in Hall as [Hc Hall]. rewrite Hc. auto.
Qed.

Lemma py_strip_blank text :
  Forall (fun c => py_isspace c = true) (list_ascii_of_string text) ->
  py_strip text = EmptyString.
Proof.
  intros Hall. unfold py_strip. by rewrite (py_lstrip_blank text).
Qed.

Lemma mean2_range (p c : Q) :
  -1 <= p <= 1 -> -1 <= c <= 1 -> -1 <= (p + c) / 2 <= 1.
Proof.
  intros Hp Hc. unfold Qdiv.
  assert (/ 2 == 1 # 2) as -> by reflexivity. lra.
Qed.

Lemma analyze_sentiment_range text :
  (forall t q, TextBlob_polarity t = Some q -> -1 <= q <= 1) ->
  (forall t q, vader_compound t = Some q -> -1 <= q <= 1) ->
  -1 <= analyze_sentiment text <= 1.
Proof.
  intros Hblob Hvader. unfold analyze_sentiment.
  pose proof (keyword_score_range text) as Hk.
  destruct (py_strip text); [lra|].
  destruct (TextBlob_polarity text) as [p|] eqn:Hp; [|lra].
  destruct (vader_compound text) as [c|] eqn:Hc; [|lra].
  apply mean2_range; eauto.
Qed.

(** C6: when both text scorers stay within [-1, 1], every per-sample
    score does: it is their mean, or on a scorer failure the keyword
    fallback, which lies strictly inside (-1, 1); empty or
    whitespace-only text scores exactly 0; and the final score, the mean
    of the three per-sample scores, lies within [-1, 1]. *)
Theorem C6_scores_in_range ALL_STOCKS get_all_news :
  (forall t q, TextBlob_polarity t = Some q -> -1 <= q <= 1) ->
  (forall t q, vader_compound t = Some q -> -1 <= q <= 1) ->
  (forall text, -1 < keyword_score text < 1) /\
  (forall text, -1 <= analyze_sentiment text <= 1) /\
  (forall text,
     Forall (fun c => py_isspace c = true) (list_ascii_of_string text) ->
     analyze_sentiment text = 0) /\
  (forall text p c,
     py_strip text <> EmptyString ->
     TextBlob_polarity text = Some p -> vader_compound text = Some c ->
     analyze_sentiment text = (p + c) / 2) /\
  (forall text,
     py_strip text <> EmptyString ->
     TextBlob_polarity text = None \/ vader_compound text = None ->
     analyze_sentiment text = keyword_score text) /\
  let avg := (fetch_and_analyze_sentiment ALL_STOCKS get_all_news).1.2 in
  let sample i := analyze_sentiment (sample_text (get_all_news i)) in
  avg == (sample 0%nat + sample 1%nat + sample 2%nat) / 3 /\
  -1 <= avg <= 1.
Proof.
  intros Hblob Hvader.
  split; [apply keyword_score_range|].
  split; [intros text; by apply analyze_sentiment_range|].
  split.
  { intros text Hblank. unfold analyze_sentiment. by rewrite py_strip_blank. }
  split.
  { intros text p c Hne Hp Hc. unfold analyze_sentiment.
    destruct (py_strip text); [done|]. by rewrite Hp, Hc. }
  split.
  { intros text Hne Hfail. unfold analyze_sentiment.
    destruct (py_strip text); [done|].
    destruct Hfail as [->| ->]; [done|]. by destruct (TextBlob_polarity text). }
  simpl.
  pose proof (analyze_sentiment_range (sample_text (get_all_news 0%nat)) Hblob Hvader).
  pose proof (analyze_sentiment_range (sample_text (get_all_news 1%nat)) Hblob Hvader).
  pose proof (analyze_sentiment_range (sample_text (get_all_news 2%nat)) Hblob Hvader).
  unfold Qsum, Qdiv. simpl.
  assert (/ inject_Z 3 == 1 # 3) as -> by reflexivity.
  assert (/ 3 == 1 # 3) as -> by reflexivity.
  split; [ring | lra].
Qed.

(** ** The daily report *)

Lemma save_daily_report_empty today st :
  all_trades st = [] -> save_daily_report today st = st.
Proof.
  intros Hall. unfold save_daily_report. rewrite Hall.
  by destruct (trade_history st).
Qed.

Lemma save_daily_report_write today st :
  all_trades st <> [] ->
  save_daily_report today st =
  with_files
    (<[report_filename today := report_content (all_trades st)]> (files st)) st.
Proof.
  intros Hall. unfold save_daily_report.
  destruct (trade_history st) eqn:Eh.
  { exfalso. apply Hall. unfold all_trades. by rewrite Eh. }
  by destruct (all_trades st).
Qed.

(** C8: running the report a second time on the same day, with no trade
    closed in between, leaves exactly the state of the first run: the
    file holds the same text, a header and one row per closed trade,
    which depends on the trade history alone. *)
Theorem C8_report_idempotent today st :
  let once := save_daily_report today st in
  let twice := save_daily_report today once in
  twice = once /\
  files twice !! report_filename today = files once !! report_filename today /\
  (all_trades st <> [] ->
     files twice !! report_filename today =
       Some (report_content (all_trades st)) /\
     report_content (all_trades st) =
       String.concat EmptyString
         (map csv_writerow (report_keys :: report_rows (all_trades st))) /\
     length (report_rows (all_trades st)) = length (all_trades st)) /\
  (forall other,
     trade_history other = trade_history st -> all_trades st <> [] ->
     files (save_daily_report today other) !! report_filename today =
     files once !! report_filename today).
Proof.
  simpl.
  assert (save_daily_report today (save_daily_report today st)
          = save_daily_report today st) as Hidem.
  { destruct (decide (all_trades st = [])) as [Hempty|Hne].
    - rewrite (save_daily_report_empty today st Hempty).
      by apply save_daily_report_empty.
    - rewrite (save_daily_report_write today st Hne).
      set (once := with_files _ st).
      assert (all_trades once = all_trades st) as Hall by done.
      rewrite save_daily_report_write by (by rewrite Hall).
      rewrite Hall. unfold once, with_files. simpl. by rewrite insert_insert_eq. }
  rewrite Hidem. split; [done|]. split; [done|]. split.
  - intros Hne. rewrite save_daily_report_write by done. simpl.
    split; [apply lookup_insert_eq|]. split; [done|].
    unfold report_rows. apply length_map.
  - intros other Hsame Hne.
    assert (all_trades other = all_trades st) as Hall
      by (unfold all_trades; by rewrite Hsame).
    rewrite (save_daily_report_write today st Hne).
    rewrite save_daily_report_write by (by rewrite Hall).
    simpl. by rewrite !lookup_insert_eq, Hall.
Qed.

(** C9: the report changes neither the open positions nor the closed
    trade history; what it writes is the header and the rows of every
    bucket of the history, bucket after bucket in the order of the
    dictionary, and no other file is touched. *)
Theorem C9_report_frame today st :
  let st' := save_daily_report today st in
  active_positions st' = active_positions st /\
  trade_history st' = trade_history st /\
  report_rows (all_trades st) =
    concat (map (fun day => map report_cells day.2) (trade_history st)) /\
  (all_trades st <> [] ->
     files st' !! report_filename today =
       Some (String.concat EmptyString
               (map csv_writerow (report_keys :: report_rows (all_trades st))))) /\
  (all_trades st = [] -> st' = st) /\
  (forall name, name <> report_filename today ->
     files st' !! name = files st !! name).
Proof.
  simpl. destruct (save_daily_report_frame today st) as [Ha Hh].
  split; [done|]. split; [done|]. split.
  { unfold report_rows, all_trades. clear Ha Hh.
    induction (trade_history st) as [|[day b] h IH]; [done|].
    simpl. by rewrite map_app, IH. }
  split.
  { intros Hne. rewrite save_daily_report_write by done. simpl.
    apply lookup_insert_eq. }
  split; [apply save_daily_report_empty|].
  intros name Hname. destruct (decide (all_trades st = [])) as [Hempty|Hne].
  - by rewrite save_daily_report_empty.
  - rewrite save_daily_report_write by done. simpl.
    by apply lookup_insert_ne.
Qed.

(** ** The monitoring cycle as a run of polls *)

Lemma monitor_step_poll get_current_price clock st sym pos :
  dict_get sym (active_positions st) = Some pos ->
  monitor_step get_current_price clock st (sym, pos) =
  poll_listed get_current_price clock st sym.
Proof.
  intros Hget. unfold poll_listed, poll_and_maybe_close. rewrite Hget.
  unfold monitor_step. by destruct (get_current_price sym).
Qed.

Lemma poll_listed_other get_current_price clock st sym sym' :
  sym <> sym' ->
  dict_get sym' (active_positions (poll_listed get_current_price clock st sym)) =
  dict_get sym' (active_positions st).
Proof.
  intros Hne. unfold poll_listed.
  destruct (get_current_price sym) as [price|]; [|done].
  destruct (dict_get sym (active_positions st)) as [pos|] eqn:Hget.
  - destruct (breached_cases pos price) as [Hbr|Hbr].
    + rewrite (poll_breach _ _ _ _ _ pos) by done.
      rewrite (exit_trade_open _ _ _ _ _ pos) by done. simpl.
      by apply dict_get_del_ne.
    + by rewrite (poll_hold _ _ _ _ _ pos).
  - by rewrite poll_flat.
Qed.

(** With distinct keys, [monitor_positions] is the run of polls over the
    instruments that were open when it started, in ledger order. *)
Lemma monitor_positions_polls get_current_price clock st :
  NoDup (active_positions st).*1 ->
  monitor_positions get_current_price clock st =
  foldl (poll_listed get_current_price clock) st (active_positions st).*1.
Proof.
  intros Hnd. unfold monitor_positions.
  assert (forall sym pos, (sym, pos) ∈ active_positions st ->
            dict_get sym (active_positions st) = Some pos) as Hall
    by (intros sym pos; by apply dict_get_NoDup_elem).
  revert Hnd Hall. generalize (active_positions st) at 1 2 4 5 as items.
  intros items. revert st.
  induction items as [|[sym pos] items IH]; intros st Hnd Hall; [done|].
  rewrite fmap_cons in Hnd. apply NoDup_cons in Hnd as [Hnotin Hnd].
  rewrite fmap_cons. cbn [foldl fst].
  rewrite monitor_step_poll by (apply Hall; apply list_elem_of_here).
  apply IH; [done|]. intros sym' pos' Hin.
  rewrite poll_listed_other.
  - apply Hall. by apply list_elem_of_further.
  - intros ->. apply Hnotin. apply list_elem_of_fmap. by exists (sym', pos').
Qed.

(** * Further properties of the code *)

(** ** The sentiment veto and the trading cycle *)


Lemma evaluate_signal_agrees pnl sentiment sig :
  evaluate_signal pnl sentiment = Some sig -> ~ vetoed sentiment sig.
Proof.
  destruct pnl as [e|]; [|done]. simpl.
  destruct (Qlt_bool 0 e), (Qlt_bool e 0), sentiment; simpl;
    intros [= <-] [[? ?]|[? ?]]; done.
Qed.



(** X2: inside the trading cycle the veto never fires: for a symbol
    whose backtest gives a signal, the order is placed as soon as the
    volatility is positive, the quantity at least 1 and a close exists,
    and the stored position is the sized one. *)
Theorem X2_cycle_places_agreeing_signal
    backtest_vwap_rsi sentiment sym st pnl df sig atr entry :
  backtest_vwap_rsi sym = Some (pnl, df) ->
  evaluate_signal (Some pnl) sentiment = Some sig ->
  calculate_atr df = Some atr -> 0 < atr ->
  (1 <= spec_quantity atr)%Z ->
  last (Close df) = Some entry ->
  ~ vetoed sentiment sig /\
  trade_symbol backtest_vwap_rsi sentiment sym st =
  Ok (with_active (dict_set sym (sized sig atr entry) (active_positions st)) st).
Proof.
  intros Hbt Hsig Hatr Hpos Hq Hlast.
  pose proof (evaluate_signal_agrees _ _ _ Hsig) as Hno.
  split; [done|]. unfold trade_symbol. rewrite Hbt.
  change (fst <$> Some (pnl, df)) with (Some pnl). rewrite Hsig.
  apply place_trade_some. apply size_order_intro; try done.
  - intros H. apply Hno. by left.
  - intros H. apply Hno. by right.
Qed.

Lemma trade_symbols_neutral backtest_vwap_rsi stocks st :
  trade_symbols backtest_vwap_rsi Neutral stocks st = Ok st.
Proof.
  induction stocks as [|sym stocks IH]; [done|]. simpl.
  assert (trade_symbol backtest_vwap_rsi Neutral sym st = Ok st) as ->; [|done].
  unfold trade_symbol. destruct (backtest_vwap_rsi sym) as [[pnl df]|]; [|done].
  simpl. by destruct (Qlt_bool 0 pnl), (Qlt_bool pnl 0).
Qed.

(** X3: when the averaged score lies within the two thresholds, a run of
    [daily_trading] places nothing: it returns the state it was given. *)
Theorem X3_neutral_cycle_is_noop ALL_STOCKS get_all_news backtest_vwap_rsi st :
  -0.2 <= (fetch_and_analyze_sentiment ALL_STOCKS get_all_news).1.2 <= 0.2 ->
  daily_trading ALL_STOCKS get_all_news backtest_vwap_rsi st = Ok st.
Proof.
  intros [Hlo Hhi]. unfold daily_trading.
  destruct (fetch_and_analyze_sentiment ALL_STOCKS get_all_news)
    as [[sentiment score] stocks] eqn:Hfetch.
  assert (sentiment = sentiment_label score) as ->.
  { unfold fetch_and_analyze_sentiment in Hfetch. by injection Hfetch as <- <- _. }
  simpl in Hlo, Hhi. unfold sentiment_label.
  apply Qlt_bool_false in Hlo, Hhi. rewrite Hhi, Hlo.
  apply trade_symbols_neutral.
Qed.



(** ** The risk budget *)

Lemma ratio_times (atr : Q) :
  0 < atr -> risk_budget / (atr * 1.5) * (atr * 1.5) == 1000.
Proof. intros Hatr. rewrite <- risk_budget_value. field. lra. Qed.

Lemma Qfloor_lt_1 (x : Q) : x < 1 -> (Qfloor x < 1)%Z.
Proof.
  intros Hx. rewrite Zlt_Qlt. apply (Qle_lt_trans _ x); [apply Qfloor_le | exact Hx].
Qed.

Lemma Qfloor_ge_1 (x : Q) : 1 <= x -> (1 <= Qfloor x)%Z.
Proof. intros Hx. apply (Qfloor_resp_le 1 x) in Hx. exact Hx. Qed.

(** X5: a stop-out at exactly the stop price loses quantity * 1.5 * atr,
    which is at most the risk budget of 1000 and misses it by less than
    one stop distance: the sizing spends the budget as far as whole
    shares allow. *)
Theorem X5_loss_at_stop_within_budget
    signal sentiment df o atr symbol price hms :
  size_order signal sentiment df = Ok (Some o) ->
  calculate_atr df = Some atr ->
  price == pos_stop_loss o ->
  breached o price /\
  loss (closed_trade symbol o price hms) == inject_Z (pos_qty o) * (1.5 * atr) /\
  loss (closed_trade symbol o price hms) <= risk_budget /\
  risk_budget < loss (closed_trade symbol o price hms) + 1.5 * atr.
Proof.
  intros Hsize Hatr Hprice.
  apply size_order_inv in Hsize
    as (atr' & entry & Hatr' & Hpos & Hq & _ & _ & _ & ->).
  rewrite Hatr in Hatr'. injection Hatr' as <-.
  assert (breached (sized signal atr entry) price) as Hbr.
  { destruct signal; [left | right]; (split; [done|]); rewrite Hprice; apply Qle_refl. }
  split; [done|].
  assert (loss (closed_trade symbol (sized signal atr entry) price hms)
          == inject_Z (spec_quantity atr) * (1.5 * atr)) as Hloss.
  { unfold loss, closed_trade, realized_pnl. simpl in *.
    destruct signal; simpl in *; rewrite Hprice; ring. }
  split; [done|]. rewrite Hloss.
  pose proof (quantity_budget atr Hpos) as Hup.
  pose proof (Qfloor_le (risk_budget / (atr * 1.5))) as Hlow.
  fold (spec_quantity atr) in Hlow.
  pose proof (ratio_times atr Hpos) as Hmul.
  rewrite inject_Z_plus in Hup. change (inject_Z 1) with 1 in Hup.
  rewrite risk_budget_value in *.
  generalize dependent (inject_Z (spec_quantity atr)). intros q. intros.
  generalize dependent (risk_budget / (atr * 1.5)). intros x. intros.
  split; nra.
Qed.

Lemma ratio_antitone (atr atr' : Q) :
  0 < atr -> atr <= atr' ->
  risk_budget / (atr' * 1.5) <= risk_budget / (atr * 1.5).
Proof.
  intros Hpos Hle.
  pose proof (ratio_times atr Hpos) as Hmul.
  pose proof (ratio_pos atr Hpos) as Hx.
  apply Qle_shift_div_r; [lra|].
  generalize dependent (risk_budget / (atr * 1.5)). intros x. intros.
  rewrite risk_budget_value. nra.
Qed.

(** X6: sizing has a volatility ceiling: above an ATR of 2000/3 the
    quantity falls below 1 and [place_trade] stores nothing, at or below
    it (and above 0) the quantity is at least 1, and a larger ATR never
    gives a larger quantity. *)
Theorem X6_atr_ceiling signal sentiment df atr symbol st :
  calculate_atr df = Some atr -> 0 < atr ->
  (2000 # 3 < atr ->
     size_order signal sentiment df = Ok None /\
     place_trade symbol signal sentiment df st = Ok st) /\
  (atr <= 2000 # 3 -> (1 <= spec_quantity atr)%Z) /\
  (forall atr', atr <= atr' -> (spec_quantity atr' <= spec_quantity atr)%Z).
Proof.
  intros Hatr Hpos.
  pose proof (ratio_times atr Hpos) as Hmul.
  pose proof (ratio_pos atr Hpos) as Hx.
  split; [|split].
  - intros Hbig.
    assert (size_order signal sentiment df = Ok None) as Hnone.
    { apply (size_order_bad_atr _ _ _ atr); [done|]. right.
      unfold spec_quantity. apply Qfloor_lt_1.
      generalize dependent (risk_budget / (atr * 1.5)). intros x. intros. nra. }
    split; [done | by apply place_trade_none].
  - intros Hsmall. unfold spec_quantity. apply Qfloor_ge_1.
    generalize dependent (risk_budget / (atr * 1.5)). intros x. intros. nra.
  - intros atr' Hle. unfold spec_quantity. apply Qfloor_resp_le.
    by apply ratio_antitone.
Qed.

(** ** The monitoring cycle *)

Lemma poll_listed_self get_current_price clock st sym :
  dict_get sym (active_positions (poll_listed get_current_price clock st sym)) =
  match dict_get sym (active_positions st), get_current_price sym with
  | Some pos, Some price =>
      match pos_signal pos with
      | BUY => if Qle_bool price (pos_stop_loss pos) then None else Some pos
      | SELL => if Qle_bool (pos_stop_loss pos) price then None else Some pos
      end
  | other, _ => other
  end.
Proof.
  unfold poll_listed.
  destruct (dict_get sym (active_positions st)) as [pos|] eqn:Hget.
  - destruct (get_current_price sym) as [price|]; [|done].
    destruct (breached_cases pos price) as [Hbr|Hbr].
    + rewrite (poll_breach _ _ _ _ _ pos) by done.
      rewrite (exit_trade_open _ _ _ _ _ pos) by done. simpl.
      rewrite dict_get_del_eq. apply breached_dec in Hbr.
      destruct (pos_signal pos); by rewrite Hbr.
    + rewrite (poll_hold _ _ _ _ _ pos) by done. rewrite Hget.
      rewrite breached_dec in Hbr.
      destruct (pos_signal pos);
        match goal with |- context [Qle_bool ?a ?b] => destruct (Qle_bool a b) end;
        done.
  - destruct (get_current_price sym) as [price|]; [|done].
    by rewrite poll_flat.
Qed.

Lemma polls_not_in get_current_price clock syms st sym :
  sym ∉ syms ->
  dict_get sym
    (active_positions (foldl (poll_listed get_current_price clock) st syms)) =
  dict_get sym (active_positions st).
Proof.
  revert st. induction syms as [|s syms IH]; intros st Hnotin; [done|].
  apply not_elem_of_cons in Hnotin as [Hne Hnotin]. simpl.
  rewrite IH by done. by apply poll_listed_other.
Qed.

Lemma polls_in get_current_price clock syms st sym :
  NoDup syms -> sym ∈ syms ->
  dict_get sym
    (active_positions (foldl (poll_listed get_current_price clock) st syms)) =
  dict_get sym (active_positions (poll_listed get_current_price clock st sym)).
Proof.
  revert st. induction syms as [|s syms IH]; intros st Hnd Hin.
  { by apply elem_of_nil in Hin. }
  apply NoDup_cons in Hnd as [Hs Hnd]. simpl.
  destruct (decide (s = sym)) as [->|Hne].
  - by apply polls_not_in.
  - apply elem_of_cons in Hin as [->|Hin]; [done|].
    rewrite IH by done. rewrite !poll_listed_self.
    by rewrite poll_listed_other.
Qed.

(** X7: what [monitor_positions] does to each instrument of a ledger:
    an instrument that was not open stays closed; an open one is kept
    unchanged when no price is available or the price has not reached the
    stop, and is removed when the price has reached it. *)
Theorem X7_monitor_outcome get_current_price clock st sym :
  NoDup (active_positions st).*1 ->
  let st' := monitor_positions get_current_price clock st in
  (dict_get sym (active_positions st) = None ->
     dict_get sym (active_positions st') = None) /\
  (forall pos, dict_get sym (active_positions st) = Some pos ->
     (get_current_price sym = None ->
        dict_get sym (active_positions st') = Some pos) /\
     (forall price, get_current_price sym = Some price ->
        breached pos price ->
        dict_get sym (active_positions st') = None) /\
     (forall price, get_current_price sym = Some price ->
        ~ breached pos price ->
        dict_get sym (active_positions st') = Some pos)).
Proof.
  intros Hnd. simpl. rewrite monitor_positions_polls by done. split.
  - intros Hnone. rewrite polls_not_in; [done|]. by apply dict_get_None.
  - intros pos Hget.
    assert (sym ∈ (active_positions st).*1) as Hin.
    { destruct (decide (sym ∈ (active_positions st).*1)) as [|Hnotin]; [done|].
      apply dict_get_None in Hnotin. congruence. }
    rewrite polls_in by done. rewrite poll_listed_self, Hget.
    split; [by intros ->|]. split.
    + intros price -> Hbr. apply breached_dec in Hbr.
      destruct (pos_signal pos); by rewrite Hbr.
    + intros price -> Hbr. rewrite breached_dec in Hbr.
      destruct (pos_signal pos);
        match goal with |- context [Qle_bool ?a ?b] => destruct (Qle_bool a b) end;
        done.
Qed.


(** The two effects of a poll that breaches the stop. *)
Lemma poll_breach_effect today hms sym price st pos :
  NoDup (trade_history st).*1 ->
  dict_get sym (active_positions st) = Some pos ->
  breached pos price ->
  active_positions (poll_and_maybe_close today hms sym price st) =
    dict_del sym (active_positions st) /\
  exists before after,
    all_trades st = before ++ after /\
    all_trades (poll_and_maybe_close today hms sym price st) =
      before ++ closed_trade sym pos price hms :: after.
Proof.
  intros Hh Hget Hbr. rewrite (poll_breach _ _ _ _ _ pos) by done.
  rewrite (exit_trade_open _ _ _ _ _ pos) by done. simpl. split; [done|].
  apply (history_append_concat today (closed_trade sym pos price hms) _ Hh).
Qed.

Lemma poll_listed_wf get_current_price clock st sym :
  wf_state st -> wf_state (poll_listed get_current_price clock st sym).
Proof.
  intros Hwf. unfold poll_listed.
  destruct (get_current_price sym); [by apply poll_wf | done].
Qed.



Lemma monitor_step_hold get_current_price clock st sym pos :
  (get_current_price sym = None \/
   exists price, get_current_price sym = Some price /\ ~ breached pos price) ->
  monitor_step get_current_price clock st (sym, pos) = st.
Proof.
  unfold monitor_step. intros [->|(price & -> & Hbr)]; [done|].
  rewrite breached_dec in Hbr.
  destruct (pos_signal pos);
    match goal with |- context [Qle_bool ?a ?b] => destruct (Qle_bool a b) end;
    done.
Qed.

(** X9: [monitor_positions] is idempotent for a given price feed: what
    survives one pass is not breached at those prices, so a second pass
    with the same prices, at whatever time, changes nothing and records
    no second trade. *)
Theorem X9_monitor_idempotent get_current_price clock clock' st :
  wf_state st ->
  monitor_positions get_current_price clock'
    (monitor_positions get_current_price clock st) =
  monitor_positions get_current_price clock st.
Proof.
  intros Hwf.
  pose proof (monitor_positions_wf get_current_price clock st Hwf) as [Ha1 _].
  set (st1 := monitor_positions get_current_price clock st) in *.
  assert (forall sym pos, (sym, pos) ∈ active_positions st1 ->
            get_current_price sym = None \/
            exists price, get_current_price sym = Some price /\
                          ~ breached pos price) as Hheld.
  { intros sym pos Hin. apply dict_get_NoDup_elem in Hin; [|done].
    destruct (get_current_price sym) as [price|] eqn:Hprice; [|by left].
    right. exists price. split; [done|]. intros Hbr.
    unfold st1 in Hin. rewrite monitor_positions_polls in Hin by apply Hwf.
    destruct (decide (sym ∈ (active_positions st).*1)) as [Hsym|Hsym].
    - rewrite polls_in in Hin by (done || apply Hwf).
      rewrite poll_listed_self, Hprice in Hin.
      destruct (dict_get sym (active_positions st)) as [pos0|]; [|done].
      apply breached_dec in Hbr.
      destruct (pos_signal pos0) eqn:Hsig;
        match type of Hin with context [Qle_bool ?a ?b] =>
          destruct (Qle_bool a b) eqn:Hle end;
        try done; injection Hin as <-; rewrite Hsig in Hbr; congruence.
    - rewrite polls_not_in in Hin by done.
      apply dict_get_None in Hsym. congruence. }
  unfold monitor_positions at 1.
  revert Hheld. generalize (active_positions st1) as items. intros items.
  generalize st1 as s. induction items as [|[sym pos] items IH]; intros s Hheld; [done|].
  cbn [foldl]. rewrite monitor_step_hold by (apply Hheld; apply list_elem_of_here).
  apply IH. intros sym' pos' Hin. apply Hheld. by apply list_elem_of_further.
Qed.

(** ** What a run of the scheduler can reach *)

Lemma sized_sound signal atr entry :
  0 < atr -> (1 <= spec_quantity atr)%Z -> sound_position (sized signal atr entry).
Proof.
  intros Hatr Hq. split; [done|]. destruct signal; simpl; lra.
Qed.

Lemma dict_set_Forall {K V} `{EqDecision K} (P : K * V -> Prop)
    (k : K) (v : V) (d : list (K * V)) :
  Forall P d -> P (k, v) -> Forall P (dict_set k v d).
Proof.
  intros Hd Hkv. unfold dict_set. destruct (dict_get k d).
  - unfold dict_replace. induction Hd as [|[k' v'] d Hx Hd IH]; [constructor|].
    rewrite map_cons. constructor; [|done]. simpl. by destruct (decide (k' = k)).
  - apply Forall_app. split; [done|]. by apply Forall_singleton.
Qed.

Lemma place_trade_losses symbol signal sentiment df st st' :
  only_losses st ->
  place_trade symbol signal sentiment df st = Ok st' ->
  only_losses st'.
Proof.
  intros [Hpos Hloss] Hplace.
  apply place_trade_inv in Hplace as [->|(o & Hsize & ->)]; [done|].
  apply size_order_inv in Hsize as (atr & entry & _ & Hatr & Hq & _ & _ & _ & ->).
  split; [|done]. simpl. apply dict_set_Forall; [done|]. by apply sized_sound.
Qed.

Lemma opens_losses st st' : only_losses st -> opens st st' -> only_losses st'.
Proof.
  intros Hinv Hopens.
  induction Hopens as [|st st1 st2 ? ? ? ? _ IH Hcall]; [done|].
  eapply place_trade_losses; [by apply IH | exact Hcall].
Qed.

(** A sound position that is stopped out is closed at a loss. *)
Lemma sound_breach_loss symbol pos price hms :
  sound_position pos -> breached pos price ->
  tr_pnl (closed_trade symbol pos price hms) < 0.
Proof.
  intros [Hq Hstop] Hbr. simpl. unfold realized_pnl.
  assert (1 <= inject_Z (pos_qty pos)) as Hq1.
  { rewrite (Zle_Qle 1) in Hq. exact Hq. }
  generalize dependent (inject_Z (pos_qty pos)). intros q Hq1.
  destruct Hbr as [[Hsig Hle]|[Hsig Hle]]; rewrite Hsig in *; nra.
Qed.

Lemma poll_losses today hms sym price st :
  wf_state st -> only_losses st ->
  only_losses (poll_and_maybe_close today hms sym price st).
Proof.
  intros [Ha Hh] [Hpos Hloss].
  destruct (dict_get sym (active_positions st)) as [pos|] eqn:Hget;
    [|by rewrite poll_flat].
  destruct (breached_cases pos price) as [Hbr|Hbr];
    [|by rewrite (poll_hold _ _ _ _ _ pos)].
  destruct (poll_breach_effect today hms sym price st pos Hh Hget Hbr)
    as (Hact & before & after & Hold & Hnew).
  split.
  - rewrite Hact. apply Forall_forall. intros kv Hin.
    apply list_elem_of_filter in Hin as [_ Hin].
    by apply (proj1 (Forall_forall _ _) Hpos).
  - rewrite Hnew. rewrite Hold in Hloss. apply Forall_app in Hloss as [Hb Haf].
    apply Forall_app. split; [done|]. constructor; [|done].
    apply sound_breach_loss; [|done].
    apply dict_get_Some_elem in Hget.
    by apply (proj1 (Forall_forall _ _) Hpos (sym, pos)).
Qed.

Lemma polls_losses get_current_price clock syms st :
  wf_state st -> only_losses st ->
  only_losses (foldl (poll_listed get_current_price clock) st syms).
Proof.
  revert st. induction syms as [|s syms IH]; intros st Hwf Hinv; [done|].
  simpl. apply IH; [by apply poll_listed_wf|].
  unfold poll_listed. destruct (get_current_price s); [by apply poll_losses | done].
Qed.

Lemma monitor_positions_losses get_current_price clock st :
  wf_state st -> only_losses st ->
  only_losses (monitor_positions get_current_price clock st).
Proof.
  intros Hwf Hinv. rewrite monitor_positions_polls by apply Hwf.
  by apply polls_losses.
Qed.

Lemma save_daily_report_all_trades today st :
  all_trades (save_daily_report today st) = all_trades st.
Proof.
  unfold all_trades. by rewrite (proj2 (save_daily_report_frame today st)).
Qed.

Lemma reachable_losses st : reachable st -> only_losses st.
Proof.
  induction 1 as [|st st' ? ? ? Hreach IH Hrun|st ? ? Hreach IH|st ? Hreach IH].
  - split; constructor.
  - apply daily_trading_opens in Hrun. by apply (opens_losses st).
  - apply monitor_positions_losses; [by apply reachable_wf | done].
  - destruct IH as [Hpos Hloss]. split.
    + by rewrite (proj1 (save_daily_report_frame today st)).
    + by rewrite save_daily_report_all_trades.
Qed.

(** X10: the bot only ever closes at a loss.  In every state that the
    three scheduled tasks can reach from the empty ledger, each closed
    trade has a strictly negative profit, and each open position has its
    stop strictly on the losing side of its entry: the only exit is the
    stop-loss, there is no take-profit. *)
Theorem X10_every_closed_trade_is_a_loss st :
  reachable st ->
  (forall t, t ∈ all_trades st -> tr_pnl t < 0) /\
  (forall sym pos, dict_get sym (active_positions st) = Some pos ->
     (1 <= pos_qty pos)%Z /\
     (pos_signal pos = BUY -> pos_stop_loss pos < pos_entry_price pos) /\
     (pos_signal pos = SELL -> pos_entry_price pos < pos_stop_loss pos)).
Proof.
  intros Hreach. destruct (reachable_losses st Hreach) as [Hpos Hloss]. split.
  - intros t Ht. by apply (proj1 (Forall_forall _ _) Hloss).
  - intros sym pos Hget. apply dict_get_Some_elem in Hget.
    destruct (proj1 (Forall_forall _ _) Hpos (sym, pos) Hget) as [Hq Hstop].
    split; [done|]. simpl in Hstop. split; intros Hsig; by rewrite Hsig in Hstop.
Qed.

(** X11: in every reachable state each instrument has at most one open
    position and each day at most one bucket of closed trades, whatever
    the order in which the tasks ran. *)
Theorem X11_reachable_keys_unique st :
  reachable st ->
  (forall sym, (dict_count sym (active_positions st) <= 1)%nat) /\
  (forall day, (dict_count day (trade_history st) <= 1)%nat).
Proof.
  intros Hreach. destruct (reachable_wf st Hreach) as [Ha Hh].
  split; by apply dict_count_NoDup.
Qed.

Lemma map_sublist {A B} (f : A -> B) (l1 l2 : list A) :
  l1 `sublist_of` l2 -> map f l1 `sublist_of` map f l2.
Proof.
  induction 1 as [|x l1 l2 _ IH|x l1 l2 _ IH]; simpl.
  - constructor.
  - by apply sublist_skip.
  - by apply sublist_cons.
Qed.

Lemma task_step_wf st st' : wf_state st -> task_step st st' -> wf_state st'.
Proof.
  intros Hwf Hstep. revert Hwf.
  destruct Hstep as [st0 st1 ? ? ? Hrun|st0 ? ?|st0 ?]; intros Hwf.
  - apply daily_trading_opens in Hrun. by apply (opens_wf st0).
  - by apply monitor_positions_wf.
  - by apply save_daily_report_wf.
Qed.

Lemma polls_history_grows get_current_price clock syms st :
  wf_state st ->
  all_trades st `sublist_of`
    all_trades (foldl (poll_listed get_current_price clock) st syms).
Proof.
  revert st. induction syms as [|s syms IH]; intros st Hwf; [done|].
  simpl. etrans; [|apply IH; by apply poll_listed_wf].
  unfold poll_listed. destruct (get_current_price s) as [price|]; [|done].
  destruct (dict_get s (active_positions st)) as [pos|] eqn:Hget;
    [|by rewrite poll_flat].
  destruct (breached_cases pos price) as [Hbr|Hbr];
    [|by rewrite (poll_hold _ _ _ _ _ pos)].
  destruct (poll_breach_effect (clock s).1 (clock s).2 s price st pos
              (proj2 Hwf) Hget Hbr) as (_ & before & after & -> & ->).
  apply sublist_app; [done|]. by apply sublist_cons.
Qed.

Lemma task_step_history_grows st st' :
  wf_state st -> task_step st st' ->
  all_trades st `sublist_of` all_trades st'.
Proof.
  intros Hwf Hstep. revert Hwf.
  destruct Hstep as [st0 st1 ? ? ? Hrun|st0 ? ?|st0 ?]; intros Hwf.
  - apply daily_trading_opens, opens_frame in Hrun as [Hh _].
    unfold all_trades. by rewrite Hh.
  - rewrite monitor_positions_polls by apply Hwf. by apply polls_history_grows.
  - by rewrite save_daily_report_all_trades.
Qed.

(** X12: the history of closed trades is never cleared: after any
    further runs of the tasks every earlier trade is still there, in the
    same order, so a report written later, on the same or on another
    day, repeats every row of a report written earlier. *)
Theorem X12_history_only_grows st st' :
  wf_state st -> rtc task_step st st' ->
  wf_state st' /\
  all_trades st `sublist_of` all_trades st' /\
  report_rows (all_trades st) `sublist_of` report_rows (all_trades st') /\
  (length (all_trades st) <= length (all_trades st'))%nat.
Proof.
  intros Hwf Hsteps.
  assert (wf_state st' /\ all_trades st `sublist_of` all_trades st') as [Hwf' Hsub].
  { induction Hsteps as [st|st st1 st2 Hstep _ IH]; [done|].
    destruct (IH (task_step_wf _ _ Hwf Hstep)) as [Hwf2 Hsub2].
    split; [done|]. etrans; [|exact Hsub2]. by apply task_step_history_grows. }
  split; [done|]. split; [done|]. split.
  - unfold report_rows. by apply map_sublist.
  - by apply sublist_length.
Qed.

(** ** Candidates and the keyword fallback *)

Lemma mentioned_in_keys ALL_STOCKS text s :
  s ∈ mentioned_in ALL_STOCKS text -> s ∈ ALL_STOCKS.*1.
Proof.
  unfold mentioned_in. change (map fst) with (fmap (M:=list) (@fst string string)).
  rewrite !list_elem_of_fmap. intros (kv & -> & Hin).
  apply list_elem_of_filter in Hin as [_ Hin]. by exists kv.
Qed.

(** X13: the candidate list returned by [fetch_and_analyze_sentiment]
    only holds symbols of [ALL_STOCKS]; it is never empty when
    [ALL_STOCKS] is not; it has no repetition when the symbols have
    none; and when no sample mentions any stock it is the first five
    symbols. *)
Theorem X13_candidates ALL_STOCKS get_all_news :
  let stocks := (fetch_and_analyze_sentiment ALL_STOCKS get_all_news).2 in
  (forall s, s ∈ stocks -> s ∈ map fst ALL_STOCKS) /\
  (ALL_STOCKS <> [] -> stocks <> []) /\
  (NoDup (map fst ALL_STOCKS) -> NoDup stocks) /\
  ((forall i, (i < 3)%nat ->
      mentioned_in ALL_STOCKS (sample_text (get_all_news i)) = []) ->
   stocks = take 5 (map fst ALL_STOCKS) /\ (length stocks <= 5)%nat).
Proof.
  simpl.
  set (mentioned :=
         mentioned_in ALL_STOCKS (sample_text (get_all_news 0%nat)) ++
         mentioned_in ALL_STOCKS (sample_text (get_all_news 1%nat)) ++
         mentioned_in ALL_STOCKS (sample_text (get_all_news 2%nat)) ++ []).
  change (map fst ALL_STOCKS) with (ALL_STOCKS.*1).
  assert (forall s, s ∈ mentioned -> s ∈ ALL_STOCKS.*1) as Hsub.
  { intros s. unfold mentioned. rewrite !elem_of_app.
    intros [H|[H|[H|H]]]; try (by apply mentioned_in_keys in H).
    by apply elem_of_nil in H. }
  split; [|split; [|split]].
  - intros s. destruct (remove_dups mentioned) as [|x l] eqn:Hrd.
    + intros Hin. eapply elem_of_sublist; [exact Hin | apply sublist_take].
    + rewrite <- Hrd. rewrite elem_of_remove_dups. apply Hsub.
  - intros Hne. destruct (remove_dups mentioned) as [|x l]; [|done].
    destruct ALL_STOCKS as [|kv rest]; done.
  - intros Hnd. destruct (remove_dups mentioned) as [|x l] eqn:Hrd.
    + apply (sublist_NoDup (take 5 ALL_STOCKS.*1) ALL_STOCKS.*1);
        [exact Hnd | apply sublist_take].
    + rewrite <- Hrd. apply NoDup_remove_dups.
  - intros Hnone. unfold mentioned.
    rewrite (Hnone 0%nat), (Hnone 1%nat), (Hnone 2%nat) by lia. simpl.
    split; [done|]. rewrite length_take. lia.
Qed.

Lemma lower_lower_char (c : ascii) : lower_char (lower_char c) = lower_char c.
Proof. destruct c as [[] [] [] [] [] [] [] []]; reflexivity. Qed.

Lemma py_lower_idem (s : string) : py_lower (py_lower s) = py_lower s.
Proof.
  induction s as [|c s IH]; [done|]. simpl. by rewrite lower_lower_char, IH.
Qed.

Lemma Qdiv_sign (a d : Q) :
  0 < d -> (0 < a / d <-> 0 < a) /\ (a / d < 0 <-> a < 0) /\ (a / d == 0 <-> a == 0).
Proof.
  intros Hd. pose proof (Qinv_lt_0_compat d Hd) as Hinv. unfold Qdiv.
  generalize dependent (/ d). intros i Hi.
  repeat split; intros H; nra.
Qed.

(** X14: the sign of the keyword fallback is the sign of positive hits
    minus negative hits (zero when they are equal, in particular when
    the text holds no keyword), and a text scores like its lower-case
    form: capital letters count as their small ones. *)
Theorem X14_keyword_score_sign text :
  let pos := keyword_hits POSITIVE_WORDS text in
  let neg := keyword_hits NEGATIVE_WORDS text in
  (0 < keyword_score text <-> (neg < pos)%Z) /\
  (keyword_score text < 0 <-> (pos < neg)%Z) /\
  (keyword_score text == 0 <-> pos = neg) /\
  keyword_score (py_lower text) = keyword_score text.
Proof.
  simpl. unfold keyword_score.
  pose proof (keyword_hits_nonneg POSITIVE_WORDS text) as Hp.
  pose proof (keyword_hits_nonneg NEGATIVE_WORDS text) as Hn.
  assert (keyword_hits POSITIVE_WORDS (py_lower text)
          = keyword_hits POSITIVE_WORDS text) as Hup1.
  { unfold keyword_hits. by rewrite py_lower_idem. }
  assert (keyword_hits NEGATIVE_WORDS (py_lower text)
          = keyword_hits NEGATIVE_WORDS text) as Hup2.
  { unfold keyword_hits. by rewrite py_lower_idem. }
  rewrite Hup1, Hup2.
  set (pos := keyword_hits POSITIVE_WORDS text) in *.
  set (neg := keyword_hits NEGATIVE_WORDS text) in *.
  assert (0 < inject_Z (pos + neg + 1)) as Hden.
  { unfold Qlt. simpl. lia. }
  destruct (Qdiv_sign (inject_Z (pos - neg)) _ Hden) as (Hgt & Hlt & Heq).
  rewrite Hgt, Hlt, Heq.
  change 0 with (inject_Z 0). rewrite <- !Zlt_Qlt, inject_Z_injective.
  repeat split; lia.
Qed.

(** ** The symbol loader *)

Lemma chars_app (s1 s2 : string) :
  list_ascii_of_string (s1 ++ s2)%string =
  list_ascii_of_string s1 ++ list_ascii_of_string s2.
Proof. induction s1 as [|c s1 IH]; [done|]. simpl. by rewrite IH. Qed.

Lemma chars_inj (s1 s2 : string) :
  list_ascii_of_string s1 = list_ascii_of_string s2 -> s1 = s2.
Proof.
  intros Heq. rewrite <- (string_of_list_ascii_of_string s1).
  rewrite <- (string_of_list_ascii_of_string s2). by rewrite Heq.
Qed.

Lemma ticker_key_inj (sym sym' : string) :
  (sym ++ ".NS")%string = (sym' ++ ".NS")%string -> sym = sym'.
Proof.
  intros Heq. apply chars_inj. apply (f_equal list_ascii_of_string) in Heq.
  rewrite !chars_app in Heq. by apply app_inv_tail in Heq.
Qed.

(** Replacing a single character by nothing removes its occurrences. *)
Lemma replace_char_chars (s : string) (c : ascii) :
  list_ascii_of_string (py_replace s (String c EmptyString) EmptyString) =
  filter (fun x => x <> c) (list_ascii_of_string s).
Proof.
  unfold py_replace. induction s as [|x s IH]; [done|]. simpl.
  destruct (ascii_dec c x) as [->|Hne].
  - rewrite filter_cons_False by auto.
    assert (String.prefix EmptyString s = true) as -> by (by destruct s).
    exact IH.
  - rewrite filter_cons_True by auto. simpl. by rewrite IH.
Qed.

Lemma contains_char_chars (s : string) (c : ascii) :
  py_contains (String c EmptyString) s = true <-> c ∈ list_ascii_of_string s.
Proof.
  induction s as [|x s IH]; simpl.
  - split; [done | by intros ?%elem_of_nil].
  - rewrite elem_of_cons. destruct (ascii_dec c x) as [->|Hne].
    + assert (String.prefix EmptyString s = true) as -> by (by destruct s).
      split; [by left | done].
    + simpl. rewrite IH. split; [by right | by intros [?|?]].
Qed.

Lemma all_alpha_chars (s : string) :
  all_alpha s = true <->
  Forall (fun c => alpha_char c = true) (list_ascii_of_string s).
Proof.
  induction s as [|c s IH]; simpl.
  - split; [constructor | done].
  - rewrite andb_true_iff, Forall_cons, IH. done.
Qed.

Lemma py_isalpha_chars (s : string) :
  py_isalpha s = true <->
  list_ascii_of_string s <> [] /\
  Forall (fun c => alpha_char c = true) (list_ascii_of_string s).
Proof.
  unfold py_isalpha. destruct s as [|c s].
  - split; [done | by intros [? _]].
  - rewrite all_alpha_chars. split; [by intros ? | by intros [_ ?]].
Qed.

(** X15: line 89 keeps a symbol exactly when it contains an ampersand,
    or consists of letters only and at least one of them is not the
    capital letter M: a symbol with a digit or a hyphen and no ampersand
    is dropped, and so is a symbol spelled with the letter M alone. *)
Theorem X15_kept_symbols (sym : string) :
  keep_symbol sym = true <->
  "&"%char ∈ list_ascii_of_string sym \/
  (Forall (fun c => alpha_char c = true) (list_ascii_of_string sym) /\
   exists c, c ∈ list_ascii_of_string sym /\ c <> "M"%char).
Proof.
  unfold keep_symbol. rewrite orb_true_iff, contains_char_chars.
  rewrite py_isalpha_chars, !replace_char_chars.
  set (chars := list_ascii_of_string sym).
  destruct (decide ("&"%char ∈ chars)) as [Hamp|Hamp].
  { split; intros _; by right + by left. }
  assert (filter (fun x : ascii => x <> "&"%char) chars = chars) as ->.
  { clear -Hamp. induction chars as [|x chars IH]; [done|].
    apply not_elem_of_cons in Hamp as [Hne Hamp].
    rewrite filter_cons_True by auto. by rewrite IH. }
  split.
  - intros [[Hne Hall]|Hin]; [|done]. right. split.
    + apply Forall_forall. intros c Hc.
      destruct (decide (c = "M"%char)) as [->|HcM]; [done|].
      apply (proj1 (Forall_forall _ _) Hall). by apply list_elem_of_filter.
    + destruct (filter (fun x : ascii => x <> "M"%char) chars) as [|c l] eqn:Hf;
        [done|].
      assert (c ∈ filter (fun x : ascii => x <> "M"%char) chars) as Hc
        by (rewrite Hf; apply list_elem_of_here).
      apply list_elem_of_filter in Hc as [HcM Hc]. by exists c.
  - intros [Hin|[Hall (c & Hc & HcM)]]; [done|]. left. split.
    + intros Hnil.
      assert (c ∈ filter (fun x : ascii => x <> "M"%char) chars) as Hcf
        by (by apply list_elem_of_filter).
      rewrite Hnil in Hcf. by apply elem_of_nil in Hcf.
    + apply Forall_forall. intros x Hx. apply list_elem_of_filter in Hx as [_ Hx].
      by apply (proj1 (Forall_forall _ _) Hall).
Qed.

Lemma unique_from_elem (seen l : list string) (x : string) :
  x ∈ unique_from seen l <-> x ∈ l /\ x ∉ seen.
Proof.
  revert seen. induction l as [|y l IH]; intros seen; simpl.
  - split; [by intros ?%elem_of_nil | by intros [?%elem_of_nil _]].
  - destruct (bool_decide (y ∈ seen)) eqn:Hy.
    + apply bool_decide_eq_true in Hy. rewrite IH, elem_of_cons.
      split; [by intros [? ?]; auto|]. intros [[->|?] ?]; done.
    + apply bool_decide_eq_false in Hy. rewrite !elem_of_cons, IH, elem_of_cons.
      split.
      * intros [->|[Hin Hnot]]; [by auto|]. split; [by right|].
        intros Hseen. apply Hnot. by right.
      * intros [[->|Hin] Hseen]; [by left|].
        destruct (decide (x = y)) as [->|Hne]; [by left|]. right.
        split; [done|]. by intros [?|?].
Qed.

Lemma unique_from_NoDup (seen l : list string) : NoDup (unique_from seen l).
Proof.
  revert seen. induction l as [|y l IH]; intros seen; simpl; [constructor|].
  destruct (bool_decide (y ∈ seen)); [done|]. constructor; [|done].
  rewrite unique_from_elem, elem_of_cons. intros [_ Hnot]. apply Hnot. by left.
Qed.

Lemma valid_symbols_elem (cells : list string) (sym : string) :
  sym ∈ valid_symbols cells <->
  valid_symbol sym = true /\ exists cell, cell ∈ cells /\ sym = clean_symbol cell.
Proof.
  unfold valid_symbols, py_unique. rewrite unique_from_elem, list_elem_of_filter.
  change (map clean_symbol cells) with (clean_symbol <$> cells).
  rewrite list_elem_of_fmap. split.
  - intros [[Hv (cell & -> & Hin)] _]. split; [done|]. by exists cell.
  - intros [Hv (cell & Hin & ->)]. split; [|apply not_elem_of_nil].
    split; [done|]. by exists cell.
Qed.

Lemma load_symbols_other (syms : list string)
    (acc : list (string * string) * nat) (k : string) :
  (forall sym, sym ∈ syms -> keep_symbol sym = true -> k <> (sym ++ ".NS")%string) ->
  dict_get k (foldl load_symbol acc syms).1 = dict_get k acc.1.
Proof.
  revert acc. induction syms as [|x syms IH]; intros acc Hk; [done|].
  simpl. rewrite IH by (intros sym Hin; apply Hk; by apply list_elem_of_further).
  unfold load_symbol. destruct (keep_symbol x) eqn:Hkeep; [|done]. simpl.
  apply dict_get_set_ne. intros Heq. by apply (Hk x (list_elem_of_here _ _)).
Qed.

Lemma load_symbols_kept (syms : list string)
    (acc : list (string * string) * nat) (sym : string) :
  sym ∈ syms -> keep_symbol sym = true ->
  dict_get (sym ++ ".NS")%string (foldl load_symbol acc syms).1 =
  Some (py_lower sym).
Proof.
  revert acc. induction syms as [|x syms IH]; intros acc Hin Hkeep.
  { by apply elem_of_nil in Hin. }
  simpl. destruct (decide (sym ∈ syms)) as [Hlater|Hlater]; [by apply IH|].
  apply elem_of_cons in Hin as [->|Hin]; [|done].
  rewrite load_symbols_other.
  - unfold load_symbol. rewrite Hkeep. simpl. apply dict_get_set_eq.
  - intros sym' Hin' _ Heq. apply ticker_key_inj in Heq. by subst.
Qed.

(** X16: the dictionary built from one SYMBOL column.  A key is present
    exactly when it is [sym.NS] for the cleaned form [sym] of some cell
    that passes the mask (not empty, not a dash, no NIFTY, BANKNIFTY or
    FINNIFTY prefix) and the test of line 89, and its value is then
    [sym] in lower case; entries already in [tickers] under other keys
    are kept. *)
Theorem X16_loaded_tickers (cells : list string)
    (tickers : list (string * string)) (k : string) :
  let loaded := (load_symbol_column cells tickers).1 in
  (forall cell,
     cell ∈ cells ->
     valid_symbol (clean_symbol cell) = true ->
     keep_symbol (clean_symbol cell) = true ->
     dict_get (clean_symbol cell ++ ".NS")%string loaded =
       Some (py_lower (clean_symbol cell))) /\
  ((forall cell,
      cell ∈ cells ->
      valid_symbol (clean_symbol cell) = true ->
      keep_symbol (clean_symbol cell) = true ->
      k <> (clean_symbol cell ++ ".NS")%string) ->
   dict_get k loaded = dict_get k tickers) /\
  (forall v, dict_get k loaded = Some v ->
     dict_get k tickers = Some v \/
     exists cell, cell ∈ cells /\
       k = (clean_symbol cell ++ ".NS")%string /\
       v = py_lower (clean_symbol cell) /\
       clean_symbol cell <> EmptyString /\ clean_symbol cell <> "-"%string /\
       String.prefix "NIFTY" (clean_symbol cell) = false /\
       String.prefix "BANKNIFTY" (clean_symbol cell) = false /\
       String.prefix "FINNIFTY" (clean_symbol cell) = false).
Proof.
  simpl. unfold load_symbol_column.
  assert (forall cell, cell ∈ cells ->
     valid_symbol (clean_symbol cell) = true ->
     keep_symbol (clean_symbol cell) = true ->
     dict_get (clean_symbol cell ++ ".NS")%string
       (foldl load_symbol (tickers, 0%nat) (valid_symbols cells)).1 =
       Some (py_lower (clean_symbol cell))) as Hkept.
  { intros cell Hin Hv Hkeep. apply load_symbols_kept; [|done].
    apply valid_symbols_elem. split; [done|]. by exists cell. }
  assert ((forall cell, cell ∈ cells ->
      valid_symbol (clean_symbol cell) = true ->
      keep_symbol (clean_symbol cell) = true ->
      k <> (clean_symbol cell ++ ".NS")%string) ->
     dict_get k (foldl load_symbol (tickers, 0%nat) (valid_symbols cells)).1
     = dict_get k tickers) as Hother.
  { intros Hk. rewrite load_symbols_other; [done|].
    intros sym Hin Hkeep. apply valid_symbols_elem in Hin as [Hv (cell & Hin & ->)].
    by apply Hk. }
  split; [done|]. split; [done|].
  intros v Hget.
  destruct (decide (Exists (fun sym => keep_symbol sym = true /\
                                      k = (sym ++ ".NS")%string)
                      (valid_symbols cells))) as [Hyes|Hno].
  - apply Exists_exists in Hyes as (sym & Hin & Hkeep & ->). right. apply valid_symbols_elem in Hin as [Hv (cell & Hin & ->)].
    rewrite Hkept in Hget by done. injection Hget as <-.
    exists cell. split; [done|]. split; [done|]. split; [done|].
    unfold valid_symbol in Hv. rewrite !andb_true_iff, !negb_true_iff in Hv.
    destruct Hv as ((((He & Hd) & H1) & H2) & H3).
    apply String.eqb_neq in He, Hd. done.
  - left. rewrite Hother in Hget; [done|].
    intros cell Hin Hv Hkeep ->. apply Hno. apply Exists_exists.
    exists (clean_symbol cell).
    split; [|done]. apply valid_symbols_elem. split; [done|]. by exists cell.
Qed.

Lemma load_symbols_count (syms : list string)
    (acc : list (string * string) * nat) :
  (foldl load_symbol acc syms).2 =
  (acc.2 + length (filter (fun sym => keep_symbol sym = true) syms))%nat.
Proof.
  revert acc. induction syms as [|x syms IH]; intros acc; simpl; [lia|].
  rewrite IH. unfold load_symbol. destruct (keep_symbol x) eqn:Hkeep.
  - rewrite filter_cons_True by done. simpl. lia.
  - rewrite filter_cons_False by (by rewrite Hkeep). done.
Qed.

Lemma load_symbols_NoDup (syms : list string)
    (acc : list (string * string) * nat) :
  NoDup acc.1.*1 -> NoDup (foldl load_symbol acc syms).1.*1.
Proof.
  revert acc. induction syms as [|x syms IH]; intros acc Hnd; [done|].
  simpl. apply IH. unfold load_symbol. destruct (keep_symbol x); [|done].
  simpl. by apply dict_set_NoDup.
Qed.

Lemma load_symbols_length_le (syms : list string)
    (acc : list (string * string) * nat) :
  (length (foldl load_symbol acc syms).1 <=
   length acc.1 + length (filter (fun sym => keep_symbol sym = true) syms))%nat.
Proof.
  revert acc. induction syms as [|x syms IH]; intros acc; simpl; [lia|].
  etrans; [apply IH|]. unfold load_symbol. destruct (keep_symbol x) eqn:Hkeep.
  - rewrite filter_cons_True by done. simpl.
    assert (length (dict_set (x ++ ".NS")%string (py_lower x) acc.1)
            <= S (length acc.1))%nat; [|lia].
    unfold dict_set. destruct (dict_get _ acc.1).
    + unfold dict_replace. rewrite length_map. lia.
    + rewrite length_app. simpl. lia.
  - rewrite filter_cons_False by (by rewrite Hkeep). done.
Qed.

Lemma load_symbols_fresh (syms : list string)
    (acc : list (string * string) * nat) :
  NoDup syms ->
  (forall sym, sym ∈ syms -> dict_get (sym ++ ".NS")%string acc.1 = None) ->
  length (foldl load_symbol acc syms).1 =
  (length acc.1 + length (filter (fun sym => keep_symbol sym = true) syms))%nat.
Proof.
  revert acc. induction syms as [|x syms IH]; intros acc Hnd Hfresh; simpl; [lia|].
  apply NoDup_cons in Hnd as [Hx Hnd].
  unfold load_symbol at 2. destruct (keep_symbol x) eqn:Hkeep.
  - rewrite filter_cons_True by done. rewrite IH; [| done |].
    + simpl. rewrite dict_set_keys_absent by (apply Hfresh; apply list_elem_of_here).
      rewrite length_app. simpl. lia.
    + intros sym Hin. simpl. rewrite dict_get_set_ne.
      * apply Hfresh. by apply list_elem_of_further.
      * intros Heq. apply ticker_key_inj in Heq. by subst.
  - rewrite filter_cons_False by (by rewrite Hkeep). apply IH; [done|].
    intros sym Hin. apply Hfresh. by apply list_elem_of_further.
Qed.

Lemma dict_set_same {K V} `{EqDecision K} (k : K) (v : V) (d : list (K * V)) :
  NoDup d.*1 -> dict_get k d = Some v -> dict_set k v d = d.
Proof.
  intros Hnd Hget. destruct (dict_set_split k v d Hnd Hget) as (d1 & d2 & Hd & Hset).
  by rewrite Hset.
Qed.

Lemma load_symbols_again (syms : list string)
    (acc : list (string * string) * nat) :
  NoDup acc.1.*1 ->
  (forall sym, sym ∈ syms -> keep_symbol sym = true ->
     dict_get (sym ++ ".NS")%string acc.1 = Some (py_lower sym)) ->
  (foldl load_symbol acc syms).1 = acc.1.
Proof.
  revert acc. induction syms as [|x syms IH]; intros acc Hnd Hall; [done|].
  simpl. assert ((load_symbol acc x).1 = acc.1) as Hstep.
  { unfold load_symbol. destruct (keep_symbol x) eqn:Hkeep; [|done]. simpl.
    apply dict_set_same; [done|]. apply Hall; [apply list_elem_of_here | done]. }
  rewrite IH; [done | by rewrite Hstep |].
  intros sym Hin Hkeep. rewrite Hstep. apply Hall; [|done].
  by apply list_elem_of_further.
Qed.

(** X17: loading the same column again changes nothing: the dictionary
    and the printed count are those of the first load, so a file listed
    twice adds no ticker.  The count is the number of distinct kept
    symbols; it bounds the growth of the dictionary, and from an empty
    dictionary it is exactly the number of tickers. *)
Theorem X17_reload_changes_nothing (cells : list string)
    (tickers : list (string * string)) :
  NoDup tickers.*1 ->
  let first := load_symbol_column cells tickers in
  load_symbol_column cells first.1 = first /\
  NoDup first.1.*1 /\
  (length first.1 <= length tickers + first.2)%nat /\
  (tickers = [] -> length first.1 = first.2).
Proof.
  intros Hnd. simpl. unfold load_symbol_column.
  set (syms := valid_symbols cells).
  pose proof (load_symbols_NoDup syms (tickers, 0%nat) Hnd) as Hnd1.
  pose proof (load_symbols_count syms (tickers, 0%nat)) as Hcount.
  simpl in Hcount. split; [|split; [done|split]].
  - apply injective_projections.
    + apply (load_symbols_again syms
               ((foldl load_symbol (tickers, 0%nat) syms).1, 0%nat)); [done|].
      intros sym Hin Hkeep. simpl.
      by apply load_symbols_kept.
    + rewrite load_symbols_count, Hcount. done.
  - rewrite Hcount. apply (load_symbols_length_le syms (tickers, 0%nat)).
  - intros ->. rewrite Hcount.
    apply (load_symbols_fresh syms ([], 0%nat)); [|done].
    apply unique_from_NoDup.
Qed.

(** ** The backtest strategy *)

Ltac qbools :=
  repeat match goal with
  | H : Qlt_bool _ _ = true |- _ => apply Qlt_bool_true in H
  | H : Qlt_bool _ _ = false |- _ => apply Qlt_bool_false in H
  | H : Qeq_bool _ _ = true |- _ => apply Qeq_bool_eq in H
  | H : Qeq_bool _ _ = false |- _ => apply Qeq_bool_neq in H
  end.

(** X18: the strategy never churns.  While flat it can only buy or sell,
    while holding it can only close; and on the values on which it buys
    (sells) when flat it leaves a long (short) position alone, so an
    entry is never followed by an exit on the same indicator values.
    With the close exactly at the VWAP it never enters. *)
Theorem X18_strategy_no_churn (size close vwap rsi : Q) :
  (size == 0 -> VWAPRSIStrategy_next size close vwap rsi <> Some CallClose) /\
  (~ size == 0 ->
     VWAPRSIStrategy_next size close vwap rsi = None \/
     VWAPRSIStrategy_next size close vwap rsi = Some CallClose) /\
  (VWAPRSIStrategy_next 0 close vwap rsi = Some CallBuy ->
     0 < size -> VWAPRSIStrategy_next size close vwap rsi = None) /\
  (VWAPRSIStrategy_next 0 close vwap rsi = Some CallSell ->
     size < 0 -> VWAPRSIStrategy_next size close vwap rsi = None) /\
  (close == vwap -> VWAPRSIStrategy_next 0 close vwap rsi = None).
Proof.
  unfold VWAPRSIStrategy_next.
  change (Qeq_bool 0 0) with true. cbv iota.
  destruct (Qeq_bool size 0) eqn:Hsize,
           (Qlt_bool vwap close) eqn:H1, (Qlt_bool close vwap) eqn:H2,
           (Qlt_bool rsi 70) eqn:H3, (Qlt_bool 30 rsi) eqn:H4,
           (Qlt_bool 70 rsi) eqn:H5, (Qlt_bool rsi 30) eqn:H6,
           (Qlt_bool 0 size) eqn:H7, (Qlt_bool size 0) eqn:H8;
    simpl; qbools;
    repeat split; intros; try done; try lra; auto.
Qed.

(** ** The dashboard *)

Lemma winning_le_length rows : (winning_trades rows <= length rows)%nat.
Proof. unfold winning_trades. apply length_filter. Qed.

(** X19: the win rate shown by the dashboard lies between 0 and 100, is
    0 for an empty report (no division by zero), and is 0 exactly when
    no row has a positive profit. *)
Theorem X19_win_rate_bounds (rows : list ReportRow) :
  0 <= win_rate rows <= 100 /\
  (rows = [] -> win_rate rows = 0) /\
  (win_rate rows == 0 <-> winning_trades rows = 0%nat).
Proof.
  pose proof (winning_le_length rows) as Hle.
  unfold win_rate. destruct rows as [|r rows]; [by repeat split|].
  set (w := winning_trades (r :: rows)) in *.
  set (n := length (r :: rows)) in *.
  assert (0 < n)%nat as Hn by (unfold n; simpl; lia).
  assert (0 < inject_Z (Z.of_nat n)) as Hd by (unfold Qlt; simpl; lia).
  assert (0 <= inject_Z (Z.of_nat w)) as Hw0 by (unfold Qle; simpl; lia).
  assert (inject_Z (Z.of_nat w) <= inject_Z (Z.of_nat n)) as Hwn
    by (rewrite <- Zle_Qle; lia).
  pose proof (Qinv_lt_0_compat _ Hd) as Hinv.
  assert (inject_Z (Z.of_nat n) * / inject_Z (Z.of_nat n) == 1) as Hone
    by (apply Qmult_inv_r; lra).
  assert (inject_Z (Z.of_nat w) == 0 <-> w = 0%nat) as Hzero.
  { change 0 with (inject_Z 0). rewrite inject_Z_injective. lia. }
  rewrite <- Hzero. unfold Qdiv.
  generalize dependent (inject_Z (Z.of_nat w)). intros qw. intros.
  generalize dependent (/ inject_Z (Z.of_nat n)). intros i. intros.
  generalize dependent (inject_Z (Z.of_nat n)). intros qn. intros.
  repeat split; try done; nra.
Qed.

Lemma Qsum_negative (l : list Q) (acc : Q) :
  Forall (fun q => q < 0) l ->
  foldl Qplus acc l <= acc /\ (l <> [] -> foldl Qplus acc l < acc).
Proof.
  revert acc. induction l as [|q l IH]; intros acc Hall; simpl.
  { split; [apply Qle_refl | done]. }
  apply Forall_cons in Hall as [Hq Hall].
  destruct (IH (acc + q) Hall) as [Hle _]. split; [lra|]. intros _. lra.
Qed.

(** X20: on a report written by the bot the dashboard can only show bad
    news: since every closed trade is a loss, the number of winning
    trades and the win rate are 0, the total profit is never positive
    (and negative as soon as there is a trade), and the sentiment shown
    is never Bullish. *)
Theorem X20_dashboard_of_bot_report st :
  reachable st ->
  let rows := map row_of_trade (all_trades st) in
  winning_trades rows = 0%nat /\
  win_rate rows == 0 /\
  total_pnl rows <= 0 /\
  (all_trades st <> [] -> total_pnl rows < 0) /\
  dashboard_sentiment rows <> Bullish.
Proof.
  intros Hreach. destruct (reachable_losses st Hreach) as [_ Hloss]. simpl.
  set (trades := all_trades st) in *.
  assert (winning_trades (map row_of_trade trades) = 0%nat) as Hwin.
  { unfold winning_trades. clear -Hloss.
    induction Hloss as [|t trades Ht _ IH]; [done|]. simpl.
    rewrite filter_cons_False; [exact IH|].
    unfold pnl_or_zero. simpl. intros Hpos. apply Qlt_bool_true in Hpos. lra. }
  assert (Forall (fun q => q < 0) (map pnl_or_zero (map row_of_trade trades)))
    as Hneg.
  { clear -Hloss. induction Hloss as [|t trades Ht _ IH]; [constructor|].
    simpl. by constructor. }
  destruct (Qsum_negative _ 0 Hneg) as [Hle Hlt].
  fold (Qsum (map pnl_or_zero (map row_of_trade trades))) in Hle, Hlt.
  fold (total_pnl (map row_of_trade trades)) in Hle, Hlt.
  split; [done|]. split.
  { unfold win_rate. destruct (map row_of_trade trades); [done|].
    rewrite Hwin. reflexivity. }
  split; [done|]. split.
  { intros Hne. apply Hlt. by destruct trades. }
  unfold dashboard_sentiment.
  destruct (Qlt_bool 100 _) eqn:Hbig.
  - apply Qlt_bool_true in Hbig. lra.
  - by destruct (Qlt_bool _ (-100)).
Qed.

(** X21: the activity log shows the last ten lines of the log file: the
    cut to the last fifty lines when loading and the cut to the last ten
    when displaying compose to one cut, and an empty or short log is
    shown whole. *)
Theorem X21_shown_log (lines : list string) :
  shown_log lines = py_tail 10 lines /\
  (length (shown_log lines) <= 10)%nat /\
  ((length lines <= 10)%nat -> shown_log lines = lines) /\
  exists earlier, lines = earlier ++ shown_log lines.
Proof.
  assert (shown_log lines = py_tail 10 lines) as Heq.
  { unfold shown_log, log_entries, py_tail. destruct lines as [|l lines]; [done|].
    set (ls := l :: lines). rewrite drop_drop, length_drop. f_equal. lia. }
  rewrite Heq. unfold py_tail. split; [done|]. split; [|split].
  - rewrite length_drop. lia.
  - intros Hshort. replace (length lines - 10)%nat with 0%nat by lia. done.
  - exists (take (length lines - 10) lines). by rewrite take_drop.
Qed.

(** ** Reports of several days, and days without news *)

Lemma string_app_inv_tail (s1 s2 t : string) :
  (s1 ++ t)%string = (s2 ++ t)%string -> s1 = s2.
Proof.
  intros Heq. apply chars_inj. apply (f_equal list_ascii_of_string) in Heq.
  rewrite !chars_app in Heq. by apply app_inv_tail in Heq.
Qed.

Lemma report_filename_inj (d1 d2 : Date) :
  report_filename d1 = report_filename d2 -> d1 = d2.
Proof.
  unfold report_filename. intros Heq. apply String.app_inj in Heq.
  by apply string_app_inv_tail in Heq.
Qed.

(** X22: reports of two different days go to two different files, and
    writing the later one leaves the earlier one in place; with no trade
    closed in between, both files hold the same text, the later report
    being the whole history again. *)
Theorem X22_reports_of_two_days (day1 day2 : Date) (st : State) :
  day1 <> day2 -> all_trades st <> [] ->
  let st2 := save_daily_report day2 (save_daily_report day1 st) in
  report_filename day1 <> report_filename day2 /\
  files st2 !! report_filename day1 = Some (report_content (all_trades st)) /\
  files st2 !! report_filename day2 = Some (report_content (all_trades st)).
Proof.
  intros Hdays Hne. simpl.
  assert (report_filename day1 <> report_filename day2) as Hnames
    by (intros Heq; by apply report_filename_inj in Heq).
  split; [done|].
  rewrite (save_daily_report_write day1 st Hne).
  set (st1 := with_files _ st).
  assert (all_trades st1 = all_trades st) as Hall by done.
  rewrite save_daily_report_write by (by rewrite Hall).
  rewrite Hall. unfold st1. simpl. split.
  - rewrite lookup_insert_ne by done. apply lookup_insert_eq.
  - apply lookup_insert_eq.
Qed.

Lemma concat_blank (parts : list string) :
  Forall (fun part => Forall (fun c => py_isspace c = true)
                        (list_ascii_of_string part)) parts ->
  Forall (fun c => py_isspace c = true)
    (list_ascii_of_string (String.concat " " parts)).
Proof.
  induction 1 as [|part parts Hpart Hparts IH]; [constructor|].
  simpl. destruct parts as [|next parts]; [done|].
  rewrite !chars_app. apply Forall_app. split; [done|].
  apply Forall_app. split; [|done]. by repeat constructor.
Qed.

(** X23: a cycle without news trades nothing.  When every draw of news
    is empty, or holds only articles whose description is missing or
    blank, each sample scores 0, the averaged score is 0, the label is
    Neutral and [daily_trading] returns the state unchanged. *)
Theorem X23_no_news_no_trade ALL_STOCKS get_all_news backtest_vwap_rsi st :
  (forall i, (i < 3)%nat ->
     Forall (fun a => Forall (fun c => py_isspace c = true)
                        (list_ascii_of_string (default EmptyString (description a))))
       (get_all_news i)) ->
  (forall i, (i < 3)%nat ->
     analyze_sentiment (sample_text (get_all_news i)) = 0) /\
  (fetch_and_analyze_sentiment ALL_STOCKS get_all_news).1.2 == 0 /\
  (fetch_and_analyze_sentiment ALL_STOCKS get_all_news).1.1 = Neutral /\
  daily_trading ALL_STOCKS get_all_news backtest_vwap_rsi st = Ok st.
Proof.
  intros Hblank.
  assert (forall i, (i < 3)%nat ->
            analyze_sentiment (sample_text (get_all_news i)) = 0) as Hzero.
  { intros i Hi. unfold analyze_sentiment. rewrite py_strip_blank; [done|].
    unfold sample_text, py_join. apply concat_blank.
    specialize (Hblank i Hi). induction Hblank; simpl; by constructor. }
  split; [done|].
  unfold daily_trading, fetch_and_analyze_sentiment. simpl.
  rewrite (Hzero 0%nat), (Hzero 1%nat), (Hzero 2%nat) by lia.
  split; [reflexivity|]. split; [reflexivity|].
  apply trade_symbols_neutral.
Qed.

(** ** Header detection *)






End Bot.

(** * Worked examples *)

Example py_count_nonoverlapping :
  py_count "aaaa" "aa" = 2%nat /\ py_count "Rate cut, rate cut" "rate cut" = 1%nat.
Proof. split; reflexivity. Qed.

Example py_strip_sample :
  py_strip "  a b  " = "a b"%string /\ py_strip "   " = EmptyString.
Proof. split; reflexivity. Qed.

Example keyword_score_sample : keyword_score "Rally, crash, RALLY" == 1 # 4.
Proof. reflexivity. Qed.

Example fallback_sample :
  analyze_sentiment blob_half vader_down "Rally, crash, RALLY" == 1 # 4 /\
  analyze_sentiment blob_half vader_low "Rally, crash, RALLY" == 1 # 8.
Proof. split; reflexivity. Qed.

Example sentiment_sample :
  (fetch_and_analyze_sentiment blob_half vader_low
     [("ABC.NS", "abc"); ("RALLY.NS", "rally ltd")]%string rally_news) =
  (Neutral,
   (fetch_and_analyze_sentiment blob_half vader_low
      [("ABC.NS", "abc"); ("RALLY.NS", "rally ltd")]%string rally_news).1.2,
   ["RALLY.NS"%string]).
Proof. reflexivity. Qed.

Example end_to_end_quantity :
  size_order (const_ATR 4) BUY Bullish (flat_frame 250) =
  Ok (Some (sized BUY 4 250)) /\
  pos_qty (sized BUY 4 250) = 166%Z /\
  pos_stop_loss (sized BUY 4 250) == 250 - 6.
Proof. repeat split. Qed.

Example veto_sample :
  size_order (const_ATR 2) BUY Bearish (flat_frame 100) = Ok None /\
  size_order (const_ATR 2) SELL Bullish (flat_frame 100) = Ok None /\
  size_order (const_ATR 2) BUY Bullish (mkFrame [] [] []) = Raise IndexError.
Proof. repeat split. Qed.

Example report_sample :
  files (save_daily_report plain_float plain_row "2024-01-02" closed_long)
    !! "daily_trade_report_2024-01-02.csv"%string =
  Some ("symbol,signal,qty,entry_price,exit_price,pnl,exit_time;"
        ++ "ABC.NS,BUY,333,100/1,96/1,-1332/1,10:15:00;")%string.
Proof. reflexivity. Qed.

Lemma opens_one_long : opens (const_ATR 2) initial_state (one_long 100).
Proof.
  apply (opens_call (const_ATR 2) initial_state initial_state (one_long 100)
           "ABC.NS" BUY Bullish (flat_frame 100)); [apply opens_nil | reflexivity].
Qed.

(** The claim of C1 as the specification words it fails: placing a
    second order for "ABC.NS" while it is held at 100 is not a no-op,
    the held position is replaced by one entered at 110. *)
Lemma C1_counterexample :
  dict_get "ABC.NS"%string (active_positions (one_long 100)) = Some (long_at 100) /\
  place_trade (const_ATR 2) "ABC.NS" BUY Bullish (flat_frame 110) (one_long 100)
    = Ok (one_long 110) /\
  one_long 110 <> one_long 100 /\
  dict_get "ABC.NS"%string (active_positions (one_long 110)) <> Some (long_at 100).
Proof.
  split; [reflexivity|]. split; [reflexivity|]. split.
  - intros H. apply (f_equal active_positions) in H. vm_compute in H. discriminate H.
  - intros H. vm_compute in H. discriminate H.
Qed.

Lemma C1_witness :
  (forall s : string, (dict_count s (active_positions initial_state) <= 1)%nat) /\
  opens (const_ATR 2) initial_state (one_long 100) /\
  (forall s : string, (dict_count s (active_positions (one_long 100)) <= 1)%nat) /\
  exists st',
    place_trade (const_ATR 2) "ABC.NS" BUY Bullish (flat_frame 110) (one_long 100)
      = Ok st' /\
    dict_get "ABC.NS"%string (active_positions st') = Some (long_at 110) /\
    (active_positions st').*1 = (active_positions (one_long 100)).*1.
Proof.
  assert (forall s : string,
            (dict_count s (active_positions initial_state) <= 1)%nat) as H0.
  { intros s. unfold dict_count. simpl. lia. }
  pose proof opens_one_long as H1.
  destruct (C1_open_overwrites_one_per_instrument (const_ATR 2)
              initial_state (one_long 100) H0 H1) as [Hcount Hopen].
  destruct (Hopen "ABC.NS"%string BUY Bullish (flat_frame 110) (long_at 110) eq_refl)
    as (st' & Hplace & Hget & _ & Hkeys & _).
  split; [exact H0|]. split; [exact H1|]. split; [exact Hcount|].
  exists st'. split; [exact Hplace|]. split; [exact Hget|].
  apply Hkeys. exists (long_at 100). reflexivity.
Defined.

Lemma C2_witness :
  (exists atr, calculate_atr (const_ATR 2) (flat_frame 100) = Some atr /\
     0 < atr /\ (1 <= spec_quantity atr)%Z /\
     pos_qty (long_at 100) = spec_quantity atr) /\
  size_order (const_ATR 0) BUY Bullish (flat_frame 100) = Ok None /\
  size_order (const_ATR 700) BUY Bullish (flat_frame 100) = Ok None.
Proof.
  split; [|split].
  - apply (proj1 (C2_risk_sizer_quantity (const_ATR 2) BUY Bullish (flat_frame 100))
             (long_at 100) eq_refl).
  - apply (proj2 (C2_risk_sizer_quantity (const_ATR 0) BUY Bullish (flat_frame 100))).
    right. exists 0. split; [reflexivity|]. left. apply Qle_refl.
  - apply (proj2 (C2_risk_sizer_quantity (const_ATR 700) BUY Bullish (flat_frame 100))).
    right. exists 700. split; [reflexivity|]. right. reflexivity.
Defined.

Lemma C3_witness :
  (pos_entry_price (sized SELL 2 100) = 100 /\
   pos_stop_loss (sized SELL 2 100) == 100 + 1.5 * 2) /\
  exists p st1,
    place_trade (const_ATR 2) "ABC.NS" BUY Bullish (flat_frame 100) initial_state
      = Ok st1 /\
    dict_get "ABC.NS"%string (active_positions st1) = Some p /\
    pos_signal p = BUY /\ pos_entry_price p == 100 /\ pos_stop_loss p == 97 /\
    let st2 := poll_and_maybe_close "2024-01-02" "10:15:00" "ABC.NS" 96 st1 in
    dict_get "ABC.NS"%string (active_positions st2) = None /\
    exists t,
      bucket "2024-01-02" (trade_history st2) =
        bucket "2024-01-02" (trade_history st1) ++ [t] /\
      tr_symbol t = "ABC.NS"%string /\ tr_exit_price t = 96 /\
      tr_pnl t == inject_Z (pos_qty p) * (96 - 100) /\ tr_pnl t < 0.
Proof.
  destruct (C3_entry_stop_roundtrip (const_ATR 2)) as [Hsized Hround].
  split.
  - destruct (Hsized SELL Bearish (flat_frame 100) (sized SELL 2 100) eq_refl)
      as (atr & entry & Hatr & Hlast & _ & Hentry & _ & Hsell).
    injection Hatr as <-. injection Hlast as <-.
    split; [exact Hentry | exact (Hsell eq_refl)].
  - apply (Hround "ABC.NS"%string Bullish (flat_frame 100) initial_state
             "2024-01-02"%string "10:15:00"%string 2 100).
    + reflexivity.
    + reflexivity.
    + reflexivity.
    + reflexivity.
    + discriminate.
Defined.

Lemma C4_witness :
  evaluate_signal (Some 50) Bullish = Some BUY /\
  evaluate_signal (Some (-50)) Bearish = Some SELL /\
  evaluate_signal (Some 50) Bearish = None /\
  evaluate_signal None Bullish = None.
Proof.
  split; [|split; [|split]].
  - apply (proj1 (C4_signal_gate (const_ATR 2) (Some 50) Bullish)).
    exists 50. split; [reflexivity|]. split; reflexivity.
  - apply (proj1 (proj2 (C4_signal_gate (const_ATR 2) (Some (-50)) Bearish))).
    exists (-50). split; [reflexivity|]. split; reflexivity.
  - apply (proj1 (proj2 (proj2 (C4_signal_gate (const_ATR 2) (Some 50) Bearish)))).
    right. right. exists 50. split; [reflexivity|].
    right. left. split; reflexivity.
  - apply (proj1 (proj2 (proj2 (C4_signal_gate (const_ATR 2) None Bullish)))).
    left. reflexivity.
Defined.

Lemma C5_witness :
  sentiment_label 0.5 = Bullish /\
  sentiment_label (-0.5) = Bearish /\
  sentiment_label 0.1 = Neutral.
Proof.
  split; [|split].
  - apply (proj1 (C5_sentiment_label blob_half vader_low 0.5)). reflexivity.
  - apply (proj1 (proj2 (C5_sentiment_label blob_half vader_low (-0.5)))).
    reflexivity.
  - apply (proj1 (proj2 (proj2 (C5_sentiment_label blob_half vader_low 0.1)))).
    split; discriminate.
Defined.

Lemma C6_witness :
  (forall (t : string) (q : Q), blob_half t = Some q -> -1 <= q <= 1) /\
  (forall (t : string) (q : Q), vader_low t = Some q -> -1 <= q <= 1) /\
  -1 <= analyze_sentiment blob_half vader_low "Markets rally" <= 1 /\
  analyze_sentiment blob_half vader_low "   " = 0 /\
  -1 <= (fetch_and_analyze_sentiment blob_half vader_low
           [("ABC.NS", "abc")]%string rally_news).1.2 <= 1.
Proof.
  assert (forall (t : string) (q : Q), blob_half t = Some q -> -1 <= q <= 1) as Hb.
  { intros t q Hq. injection Hq as <-. split; discriminate. }
  assert (forall (t : string) (q : Q), vader_low t = Some q -> -1 <= q <= 1) as Hv.
  { intros t q Hq. injection Hq as <-. split; discriminate. }
  destruct (C6_scores_in_range blob_half vader_low
              [("ABC.NS", "abc")]%string rally_news Hb Hv)
    as (_ & Hrange & Hblank & _ & _ & Havg).
  split; [exact Hb|]. split; [exact Hv|].
  split; [apply Hrange|]. split.
  - apply Hblank. repeat constructor.
  - apply Havg.
Defined.

Lemma C7_witness :
  NoDup (trade_history (one_long 100)).*1 /\
  dict_get "ABC.NS"%string
    (active_positions
       (poll_and_maybe_close "2024-01-02" "10:15:00" "ABC.NS" 96 (one_long 100)))
    = None /\
  length (all_trades
            (poll_and_maybe_close "2024-01-02" "10:15:00" "ABC.NS" 96 (one_long 100)))
    = 1%nat /\
  poll_and_maybe_close "2024-01-02" "10:15:00" "ABC.NS" 98 (one_long 100)
    = one_long 100.
Proof.
  assert (NoDup (trade_history (one_long 100)).*1) as Hnd by apply NoDup_nil_2.
  split; [exact Hnd|].
  destruct (C7_poll_and_maybe_close "2024-01-02"%string "10:15:00"%string
              "ABC.NS"%string 96 (one_long 100) Hnd) as [_ Hopen].
  destruct (Hopen (long_at 100) eq_refl) as [Hclose _].
  assert (breached (long_at 100) 96) as Hbr.
  { left. split; [reflexivity | discriminate]. }
  destruct (Hclose Hbr) as (_ & _ & Hgone & _ & _ & _ & Hlen & _).
  split; [exact Hgone|]. split; [exact Hlen|].
  destruct (C7_poll_and_maybe_close "2024-01-02"%string "10:15:00"%string
              "ABC.NS"%string 98 (one_long 100) Hnd) as [_ Hopen'].
  apply (proj2 (Hopen' (long_at 100) eq_refl)).
  intros [[_ Hle]|[Hsell _]]; [|discriminate Hsell].
  apply Hle. reflexivity.
Defined.

Lemma C10_witness :
  dict_get "ABC.NS"%string (active_positions (one_long 100)) = Some (long_at 100) /\
  breached (long_at 100) 90 /\
  tr_exit_price (closed_trade "ABC.NS" (long_at 100) 90 "10:15:00") = 90 /\
  tr_pnl (closed_trade "ABC.NS" (long_at 100) 90 "10:15:00")
    = inject_Z (pos_qty (long_at 100)) * (90 - pos_entry_price (long_at 100)) /\
  risk_budget < loss (closed_trade "ABC.NS" (long_at 100) 90 "10:15:00").
Proof.
  assert (breached (long_at 100) 90) as Hbr.
  { left. split; [reflexivity | discriminate]. }
  destruct (C10_exit_at_polled_price (const_ATR 2) "2024-01-02"%string
              "10:15:00"%string "ABC.NS"%string (one_long 100) (long_at 100) 90
              eq_refl Hbr) as (_ & Hexit & Hbuy & _ & Hsized).
  destruct (Hsized BUY Bullish (flat_frame 100) 2 eq_refl eq_refl)
    as (_ & Hover & _).
  split; [reflexivity|]. split; [exact Hbr|]. split; [exact Hexit|].
  split; [apply Hbuy; reflexivity|].
  apply Hover; [reflexivity | discriminate].
Defined.

Lemma C8_witness :
  all_trades closed_long <> [] /\
  save_daily_report plain_float plain_row "2024-01-02"
    (save_daily_report plain_float plain_row "2024-01-02" closed_long)
    = save_daily_report plain_float plain_row "2024-01-02" closed_long /\
  files (save_daily_report plain_float plain_row "2024-01-02"
           (save_daily_report plain_float plain_row "2024-01-02" closed_long))
    !! report_filename "2024-01-02"
    = Some (report_content plain_float plain_row (all_trades closed_long)) /\
  length (report_rows plain_float (all_trades closed_long)) = 1%nat.
Proof.
  assert (all_trades closed_long <> []) as Hne by discriminate.
  destruct (C8_report_idempotent plain_float plain_row "2024-01-02"%string
              closed_long) as (Hidem & _ & Hfile & _).
  destruct (Hfile Hne) as (Hcontent & _ & Hrows).
  split; [exact Hne|]. split; [exact Hidem|]. split; [exact Hcontent|].
  exact Hrows.
Defined.

Lemma C9_witness :
  all_trades closed_long <> [] /\
  active_positions (save_daily_report plain_float plain_row "2024-01-02" closed_long)
    = active_positions closed_long /\
  trade_history (save_daily_report plain_float plain_row "2024-01-02" closed_long)
    = trade_history closed_long /\
  files (save_daily_report plain_float plain_row "2024-01-02" closed_long)
    !! report_filename "2024-01-02"
    = Some (String.concat EmptyString
              (map plain_row
                 (report_keys :: report_rows plain_float (all_trades closed_long)))).
Proof.
  assert (all_trades closed_long <> []) as Hne by discriminate.
  destruct (C9_report_frame plain_float plain_row "2024-01-02"%string closed_long)
    as (Ha & Hh & _ & Hfile & _).
  split; [exact Hne|]. split; [exact Ha|]. split; [exact Hh|].
  apply Hfile. exact Hne.
Defined.

(** * Worked examples for the further properties *)

Lemma bullish_day_opens :
  daily_trading blob_half vader_half (const_ATR 2) one_stock rally_news
    backtest_up initial_state = Ok (one_long 100).
Proof. reflexivity. Qed.

Lemma stopped_out_reachable :
  reachable blob_half vader_half (const_ATR 2) plain_float plain_row stopped_out.
Proof.
  apply reach_monitor.
  apply (reach_trading _ _ _ _ _ initial_state (one_long 100)
           one_stock rally_news backtest_up); [apply reach_start|].
  exact bullish_day_opens.
Qed.

Lemma one_long_wf : wf_state (one_long 100).
Proof.
  split; simpl; [|constructor]. apply NoDup_singleton.
Qed.

Example stopped_out_value :
  active_positions stopped_out = [] /\
  map tr_pnl (all_trades stopped_out) = [-1332].
Proof. split; reflexivity. Qed.

Example loader_sample :
  load_symbol_column sample_cells [] =
  ([("RELIANCE.NS", "reliance"); ("M&M.NS", "m&m"); ("TCS.NS", "tcs")]%string,
   3%nat).
Proof. reflexivity. Qed.


Lemma X2_witness :
  ~ vetoed Bullish BUY /\
  trade_symbol (const_ATR 2) backtest_up Bullish "ABC.NS" initial_state =
  Ok (with_active
        (dict_set "ABC.NS"%string (sized BUY 2 100) (active_positions initial_state))
        initial_state).
Proof.
  apply (X2_cycle_places_agreeing_signal (const_ATR 2) backtest_up Bullish
           "ABC.NS"%string initial_state 50 (flat_frame 100) BUY 2 100);
    first [reflexivity | discriminate].
Defined.

Lemma X3_witness :
  -0.2 <= (fetch_and_analyze_sentiment blob_half vader_low one_stock rally_news).1.2
    <= 0.2 /\
  daily_trading blob_half vader_low (const_ATR 2) one_stock rally_news
    backtest_up (one_long 100) = Ok (one_long 100).
Proof.
  assert (-0.2 <= (fetch_and_analyze_sentiment blob_half vader_low
                     one_stock rally_news).1.2 <= 0.2) as Hmid
    by (split; discriminate).
  split; [exact Hmid|].
  exact (X3_neutral_cycle_is_noop blob_half vader_low (const_ATR 2)
           one_stock rally_news backtest_up (one_long 100) Hmid).
Defined.


Lemma X5_witness :
  breached (sized BUY 4 250) 244 /\
  loss (closed_trade "ABC.NS" (sized BUY 4 250) 244 "10:15:00") ==
    inject_Z 166 * (1.5 * 4) /\
  loss (closed_trade "ABC.NS" (sized BUY 4 250) 244 "10:15:00") <= risk_budget.
Proof.
  destruct (X5_loss_at_stop_within_budget (const_ATR 4) BUY Bullish
              (flat_frame 250) (sized BUY 4 250) 4 "ABC.NS"%string 244
              "10:15:00"%string eq_refl eq_refl eq_refl)
    as (Hbr & Hloss & Hle & _).
  split; [exact Hbr|]. split; [exact Hloss | exact Hle].
Defined.

Lemma X6_witness :
  size_order (const_ATR 700) BUY Bullish (flat_frame 100) = Ok None /\
  (1 <= spec_quantity 600)%Z /\
  (spec_quantity 600 <= spec_quantity 2)%Z.
Proof.
  split; [|split].
  - apply (proj1 (X6_atr_ceiling (const_ATR 700) BUY Bullish (flat_frame 100)
                    700 "ABC.NS"%string initial_state eq_refl eq_refl)).
    reflexivity.
  - apply (proj1 (proj2 (X6_atr_ceiling (const_ATR 600) BUY Bullish
                           (flat_frame 100) 600 "ABC.NS"%string initial_state
                           eq_refl eq_refl))).
    discriminate.
  - apply (proj2 (proj2 (X6_atr_ceiling (const_ATR 2) BUY Bullish
                           (flat_frame 100) 2 "ABC.NS"%string initial_state
                           eq_refl eq_refl))).
    discriminate.
Defined.

Lemma X7_witness :
  NoDup (active_positions (one_long 100)).*1 /\
  dict_get "ABC.NS"%string
    (active_positions (monitor_positions price_96 morning (one_long 100))) = None /\
  dict_get "ABC.NS"%string
    (active_positions (monitor_positions (fun _ => None) morning (one_long 100)))
    = Some (long_at 100).
Proof.
  pose proof (proj1 one_long_wf) as Hnd. split; [exact Hnd|]. split.
  - destruct (X7_monitor_outcome price_96 morning (one_long 100) "ABC.NS"%string Hnd)
      as [_ Hopen].
    destruct (Hopen (long_at 100) eq_refl) as (_ & Hhit & _).
    apply (Hhit 96 eq_refl). left. split; [reflexivity | discriminate].
  - destruct (X7_monitor_outcome (fun _ => None) morning (one_long 100)
                "ABC.NS"%string Hnd) as [_ Hopen].
    destruct (Hopen (long_at 100) eq_refl) as (Hkeep & _).
    apply Hkeep. reflexivity.
Defined.


Lemma X9_witness :
  wf_state (one_long 100) /\
  monitor_positions price_96 (fun _ => ("2024-01-02", "10:16:00")%string) stopped_out
    = stopped_out.
Proof.
  split; [exact one_long_wf|].
  apply (X9_monitor_idempotent price_96 morning _ (one_long 100) one_long_wf).
Defined.

Lemma X10_witness :
  reachable blob_half vader_half (const_ATR 2) plain_float plain_row stopped_out /\
  (forall t, t ∈ all_trades stopped_out -> tr_pnl t < 0).
Proof.
  split; [exact stopped_out_reachable|].
  apply (X10_every_closed_trade_is_a_loss blob_half vader_half (const_ATR 2)
           plain_float plain_row stopped_out stopped_out_reachable).
Defined.

Lemma X11_witness :
  reachable blob_half vader_half (const_ATR 2) plain_float plain_row stopped_out /\
  (forall day : Date, (dict_count day (trade_history stopped_out) <= 1)%nat).
Proof.
  split; [exact stopped_out_reachable|].
  apply (X11_reachable_keys_unique blob_half vader_half (const_ATR 2)
           plain_float plain_row stopped_out stopped_out_reachable).
Defined.

Lemma X12_witness :
  wf_state (one_long 100) /\
  rtc (task_step blob_half vader_half (const_ATR 2) plain_float plain_row)
    (one_long 100) (save_daily_report plain_float plain_row "2024-01-02" stopped_out) /\
  (length (all_trades (one_long 100)) <=
   length (all_trades
             (save_daily_report plain_float plain_row "2024-01-02" stopped_out)))%nat.
Proof.
  assert (rtc (task_step blob_half vader_half (const_ATR 2) plain_float plain_row)
            (one_long 100)
            (save_daily_report plain_float plain_row "2024-01-02" stopped_out))
    as Hsteps.
  { eapply rtc_l; [apply (step_monitor _ _ _ _ _ (one_long 100) price_96 morning)|].
    apply rtc_once. apply step_report. }
  split; [exact one_long_wf|]. split; [exact Hsteps|].
  apply (X12_history_only_grows blob_half vader_half (const_ATR 2) plain_float
           plain_row _ _ one_long_wf Hsteps).
Defined.

Lemma X17_witness :
  NoDup (@nil (string * string)).*1 /\
  load_symbol_column sample_cells (load_symbol_column sample_cells []).1 =
    load_symbol_column sample_cells [] /\
  length (load_symbol_column sample_cells []).1 = (load_symbol_column sample_cells []).2.
Proof.
  assert (NoDup (@nil (string * string)).*1) as Hnd by apply NoDup_nil_2.
  destruct (X17_reload_changes_nothing sample_cells [] Hnd) as (Hagain & _ & _ & Hlen).
  split; [exact Hnd|]. split; [exact Hagain|]. apply Hlen. reflexivity.
Defined.

Lemma X20_witness :
  reachable blob_half vader_half (const_ATR 2) plain_float plain_row stopped_out /\
  win_rate (map row_of_trade (all_trades stopped_out)) == 0 /\
  total_pnl (map row_of_trade (all_trades stopped_out)) < 0.
Proof.
  split; [exact stopped_out_reachable|].
  destruct (X20_dashboard_of_bot_report blob_half vader_half (const_ATR 2)
              plain_float plain_row stopped_out stopped_out_reachable)
    as (_ & Hrate & _ & Hneg & _).
  split; [exact Hrate|]. apply Hneg. discriminate.
Defined.

Lemma X22_witness :
  "2024-01-02"%string <> "2024-01-03"%string /\
  all_trades stopped_out <> [] /\
  files (save_daily_report plain_float plain_row "2024-01-03"
           (save_daily_report plain_float plain_row "2024-01-02" stopped_out))
    !! report_filename "2024-01-02"
  = files (save_daily_report plain_float plain_row "2024-01-03"
             (save_daily_report plain_float plain_row "2024-01-02" stopped_out))
      !! report_filename "2024-01-03".
Proof.
  assert ("2024-01-02"%string <> "2024-01-03"%string) as Hdays by discriminate.
  assert (all_trades stopped_out <> []) as Hne by discriminate.
  destruct (X22_reports_of_two_days plain_float plain_row "2024-01-02"%string
              "2024-01-03"%string stopped_out Hdays Hne) as (_ & H1 & H2).
  split; [exact Hdays|]. split; [exact Hne|].
  exact (eq_trans H1 (eq_sym H2)).
Defined.

Lemma X23_witness :
  (forall i, (i < 3)%nat ->
     Forall (fun a => Forall (fun c => py_isspace c = true)
                        (list_ascii_of_string (default EmptyString (description a))))
       (silent_news i)) /\
  (fetch_and_analyze_sentiment blob_half vader_half one_stock silent_news).1.1
    = Neutral /\
  daily_trading blob_half vader_half (const_ATR 2) one_stock silent_news
    backtest_up initial_state = Ok initial_state.
Proof.
  assert (forall i, (i < 3)%nat ->
     Forall (fun a => Forall (fun c => py_isspace c = true)
                        (list_ascii_of_string (default EmptyString (description a))))
       (silent_news i)) as Hblank.
  { intros i _. repeat constructor. }
  destruct (X23_no_news_no_trade blob_half vader_half (const_ATR 2) one_stock
              silent_news backtest_up initial_state Hblank)
    as (_ & _ & Hlabel & Hnoop).
  split; [exact Hblank|]. split; [exact Hlabel | exact Hnoop].
Defined.

Lemma X13_witness :
  (fetch_and_analyze_sentiment blob_half vader_half one_stock rally_news).2 <> [] /\
  (fetch_and_analyze_sentiment blob_half vader_half one_stock rally_news).2
    = take 5 (map fst one_stock).
Proof.
  destruct (X13_candidates blob_half vader_half one_stock rally_news)
    as (_ & Hne & _ & Hfirst).
  split.
  - apply Hne. discriminate.
  - apply Hfirst. intros i Hi.
    destruct i as [|[|[|i]]]; [reflexivity | reflexivity | reflexivity | lia].
Defined.

Lemma X14_witness :
  0 < keyword_score "Markets rally to new highs" /\
  keyword_score "Shares DROP on concerns" < 0.
Proof.
  split.
  - apply (proj1 (X14_keyword_score_sign "Markets rally to new highs")).
    reflexivity.
  - apply (proj1 (proj2 (X14_keyword_score_sign "Shares DROP on concerns"))).
    reflexivity.
Defined.

Lemma X15_witness :
  keep_symbol "M&M" = true /\ keep_symbol "RELIANCE" = true /\
  ~ keep_symbol "MM" = true.
Proof.
  split; [|split].
  - apply (proj2 (X15_kept_symbols "M&M")). left.
    apply list_elem_of_further, list_elem_of_here.
  - apply (proj2 (X15_kept_symbols "RELIANCE")). right. split.
    + repeat constructor.
    + exists "R"%char. split; [apply list_elem_of_here | discriminate].
  - intros Hkeep. apply (proj1 (X15_kept_symbols "MM")) in Hkeep.
    destruct Hkeep as [Hamp|[_ (c & Hc & HcM)]].
    + repeat (apply elem_of_cons in Hamp as [Hamp|Hamp]; [discriminate Hamp|]).
      by apply elem_of_nil in Hamp.
    + repeat (apply elem_of_cons in Hc as [Hc|Hc]; [by apply HcM|]).
      by apply elem_of_nil in Hc.
Defined.

Lemma X16_witness :
  dict_get "M&M.NS"%string (load_symbol_column sample_cells []).1 = Some "m&m"%string /\
  dict_get "NIFTY 50.NS"%string (load_symbol_column sample_cells []).1 = None.
Proof.
  split.
  - apply (proj1 (X16_loaded_tickers sample_cells [] "M&M.NS"%string)
             "M&amp;M"%string).
    + apply list_elem_of_further, list_elem_of_here.
    + reflexivity.
    + reflexivity.
  - destruct (dict_get "NIFTY 50.NS"%string (load_symbol_column sample_cells []).1)
      as [v|] eqn:Hget; [|reflexivity].
    apply (proj2 (proj2 (X16_loaded_tickers sample_cells [] "NIFTY 50.NS"%string)))
      in Hget.
    destruct Hget as [Hold|(cell & Hin & Hkey & _ & _ & _ & Hprefix & _)];
      [discriminate Hold|].
    apply (string_app_inv_tail "NIFTY 50" (clean_symbol cell) ".NS") in Hkey.
    rewrite <- Hkey in Hprefix.
    discriminate Hprefix.
Defined.

Lemma X18_witness :
  VWAPRSIStrategy_next 0 101 100 50 = Some CallBuy /\
  VWAPRSIStrategy_next 10 101 100 50 = None /\
  VWAPRSIStrategy_next 0 100 100 50 = None.
Proof.
  destruct (X18_strategy_no_churn 10 101 100 50) as (_ & _ & Hhold & _).
  destruct (X18_strategy_no_churn 0 100 100 50) as (_ & _ & _ & _ & Hflat).
  split; [reflexivity|]. split.
  - apply Hhold; reflexivity.
  - apply Hflat. reflexivity.
Defined.

Lemma X19_witness :
  win_rate [] = 0 /\
  0 <= win_rate [mkRow (Some 5); mkRow (Some (-3)); mkRow None] <= 100.
Proof.
  split.
  - apply (proj1 (proj2 (X19_win_rate_bounds []))). reflexivity.
  - apply (proj1 (X19_win_rate_bounds
                    [mkRow (Some 5); mkRow (Some (-3)); mkRow None])).
Defined.

Lemma X21_witness :
  shown_log ["a"; "b"; "c"]%string = ["a"; "b"; "c"]%string.
Proof.
  apply (proj1 (proj2 (proj2 (X21_shown_log ["a"; "b"; "c"]%string)))).
  simpl. lia.
Defined.

